(** * investor_agent_data: acquisition and conversion of NSE bhavcopy files

    A shallow embedding of the three Python modules of the repository,

    - [holidays/indian_holidays.py]           (module [Holidays]),
    - [gcp_upload/create_local_structure.py]  (module [Convert]),
    - [nse_download/download_nse_data_headless.py] (module [Download]),

    together with the parts of the Python standard library they lean on
    ([str], [datetime], [pathlib], the filesystem), and the properties
    of the specification stated over them. *)

From stdpp Require Import gmap strings list fin_maps pretty.
From Stdlib Require Import ZArith Ascii String Lia.

Local Open Scope string_scope.
Local Open Scope Z_scope.
Local Open Scope list_scope.

(* ===================================================================== *)
(** * Python's [str]: texts and their characters                           *)
(* ===================================================================== *)

(** A text (a Python [str]) is held as a [string]: the bytes of its
    UTF-8 form.  Where the code counts or classifies characters
    ([stem[-8:]], the [\d] of a regular expression, [str.strip]) the
    text is taken apart into its characters, each a code point.  A byte
    that begins no well-formed sequence stands for a character of its
    own, the lone surrogate [U+DC00 + byte] that Python makes of such a
    byte in the name of a file. *)
Module Unicode.

Definition byte_value (c : ascii) : Z := Z.of_nat (nat_of_ascii c).

(** A continuation byte, [10xxxxxx]. *)
Definition is_cont (b : Z) : bool := (128 <=? b) && (b <=? 191).

(** The well-formed sequences of two, three and four bytes: no overlong
    form, no surrogate, nothing above [U+10FFFF]. *)
Definition two_bytes (a b : Z) : bool :=
  (194 <=? a) && (a <=? 223) && is_cont b.

Definition three_bytes (a b c : Z) : bool :=
  (224 <=? a) && (a <=? 239) && is_cont b && is_cont c
  && ((160 <=? b) || negb (a =? 224))
  && ((b <=? 159) || negb (a =? 237)).

Definition four_bytes (a b c e : Z) : bool :=
  (240 <=? a) && (a <=? 244) && is_cont b && is_cont c && is_cont e
  && ((144 <=? b) || negb (a =? 240))
  && ((b <=? 143) || negb (a =? 244)).

(** The characters of a text, each with its own bytes. *)
Fixpoint split_chars (s : string) : list string :=
  match s with
  | "" => []
  | String a r =>
      match r with
      | String b r2 =>
          if two_bytes (byte_value a) (byte_value b)
          then String a (String b "") :: split_chars r2
          else
            match r2 with
            | String c r3 =>
                if three_bytes (byte_value a) (byte_value b) (byte_value c)
                then String a (String b (String c "")) :: split_chars r3
                else
                  match r3 with
                  | String e r4 =>
                      if four_bytes (byte_value a) (byte_value b) (byte_value c)
                                    (byte_value e)
                      then String a (String b (String c (String e ""))) :: split_chars r4
                      else String a "" :: split_chars r
                  | "" => String a "" :: split_chars r
                  end
            | "" => String a "" :: split_chars r
            end
      | "" => [String a ""]
      end
  end.

(** The code point of a character. *)
Definition code_point (c : string) : Z :=
  match c with
  | String a "" =>
      if byte_value a <? 128 then byte_value a else 56320 + byte_value a
  | String a (String b "") =>
      (byte_value a - 192) * 64 + (byte_value b - 128)
  | String a (String b (String c "")) =>
      (byte_value a - 224) * 4096 + (byte_value b - 128) * 64 + (byte_value c - 128)
  | String a (String b (String c (String e ""))) =>
      (byte_value a - 240) * 262144 + (byte_value b - 128) * 4096
      + (byte_value c - 128) * 64 + (byte_value e - 128)
  | _ => 0
  end.

(** A text of ASCII characters alone. *)
Definition ascii_text (t : string) : Prop :=
  Forall (fun c => byte_value c < 128) (list_ascii_of_string t).

(** A text as the sequence of its code points. *)
Definition text : Type := list Z.

Definition chars (s : string) : text := map code_point (split_chars s).

(** [s[-n:]] *)
Definition last_n (n : nat) (t : text) : text := drop (List.length t - n) t.

(** ** Decimal digits

    The characters of the category [Nd] of the Unicode database (that
    of version 14.0, which Python 3.11 carries): they come in runs of
    ten, from the zero of a script to its nine.  These are the
    characters [\d] matches and [int] reads, each with its value. *)
Definition DECIMAL_ZEROS : list Z :=
  [48; 1632; 1776; 1984; 2406; 2534; 2662; 2790; 2918; 3046; 3174; 3302;
   3430; 3558; 3664; 3792; 3872; 4160; 4240; 6112; 6160; 6470; 6608; 6784;
   6800; 6992; 7088; 7232; 7248; 42528; 43216; 43264; 43472; 43504; 43600;
   44016; 65296; 66720; 68912; 69734; 69872; 69942; 70096; 70384; 70736;
   70864; 71248; 71360; 71472; 71904; 72016; 72784; 73040; 73120; 92768;
   92864; 93008; 120782; 120792; 120802; 120812; 120822; 123200; 123632;
   125264; 130032].

Definition decimal_value (c : Z) : option Z :=
  match List.find (fun z => (z <=? c) && (c <? z + 10)) DECIMAL_ZEROS with
  | Some z => Some (c - z)
  | None => None
  end.

(** ** White space

    The characters [str.strip] takes away. *)
Definition is_space (c : Z) : bool :=
  ((9 <=? c) && (c <=? 13)) || ((28 <=? c) && (c <=? 32))
  || (c =? 133) || (c =? 160) || (c =? 5760)
  || ((8192 <=? c) && (c <=? 8202))
  || (c =? 8232) || (c =? 8233) || (c =? 8239) || (c =? 8287) || (c =? 12288).

Fixpoint lstrip (t : text) : text :=
  match t with
  | c :: r => if is_space c then lstrip r else t
  | [] => []
  end.

Fixpoint rstrip (t : text) : text :=
  match t with
  | c :: r =>
      match rstrip r with
      | [] => if is_space c then [] else [c]
      | r' => c :: r'
      end
  | [] => []
  end.

(** [s.strip()] *)
Definition strip (t : text) : text := rstrip (lstrip t).

End Unicode.

Export Unicode.

(* ===================================================================== *)
(** * Python's [datetime]: calendar dates, formatting and parsing          *)
(* ===================================================================== *)

Module Datetime.

(** A [datetime.date]; the pipeline's [datetime] values are all at
    midnight, so the same record serves for them. *)
Record date := mkdate { year : Z; month : Z; day : Z }.

#[global] Instance date_eq_dec : EqDecision date.
Proof. solve_decision. Defined.

#[global] Instance date_countable : Countable date.
Proof.
  refine (inj_countable' (fun d => (year d, month d, day d))
                         (fun t => mkdate t.1.1 t.1.2 t.2) _).
  by intros [].
Defined.

Definition MINYEAR : Z := 1.
Definition MAXYEAR : Z := 9999.

Definition is_leap (y : Z) : bool :=
  (y mod 4 =? 0) && (negb (y mod 100 =? 0) || (y mod 400 =? 0)).

Definition days_in_month (y m : Z) : Z :=
  if m =? 2 then (if is_leap y then 29 else 28)
  else if (m =? 4) || (m =? 6) || (m =? 9) || (m =? 11) then 30
  else 31.

(** The check the [date] constructor makes; every Python date satisfies it. *)
Definition valid_dateb (d : date) : bool :=
  (MINYEAR <=? year d) && (year d <=? MAXYEAR)
  && (1 <=? month d) && (month d <=? 12)
  && (1 <=? day d) && (day d <=? days_in_month (year d) (month d)).

Definition valid_date (d : date) : Prop := valid_dateb d = true.

(** [_days_before_year], [_days_before_month], [toordinal], [weekday]. *)
Definition days_before_year (y : Z) : Z :=
  let y1 := y - 1 in y1 * 365 + y1 / 4 - y1 / 100 + y1 / 400.

Fixpoint days_before_month_aux (y : Z) (n : nat) : Z :=
  match n with
  | O => 0
  | S k => days_before_month_aux y k + days_in_month y (Z.of_nat n)
  end.

Definition days_before_month (y m : Z) : Z :=
  days_before_month_aux y (Z.to_nat (m - 1)).

Definition toordinal (d : date) : Z :=
  days_before_year (year d) + days_before_month (year d) (month d) + day d.

(** Monday is 0, Sunday is 6. *)
Definition weekday (d : date) : Z := (toordinal d + 6) mod 7.

(** [d + timedelta(days=1)]; [None] is Python's [OverflowError]. *)
Definition next_day (d : date) : option date :=
  if day d <? days_in_month (year d) (month d)
  then Some (mkdate (year d) (month d) (day d + 1))
  else if month d <? 12 then Some (mkdate (year d) (month d + 1) 1)
  else if year d <? MAXYEAR then Some (mkdate (year d + 1) 1 1)
  else None.

(** Order of dates, as [<=] on [date] compares them. *)
Definition date_leb (a b : date) : bool :=
  (year a <? year b)
  || ((year a =? year b)
      && ((month a <? month b)
          || ((month a =? month b) && (day a <=? day b)))).

(** ** Formatting *)

Definition digit_char (k : Z) : ascii := ascii_of_nat (Z.to_nat (48 + k)).

Definition pad2 (n : Z) : string :=
  String (digit_char (n / 10)) (String (digit_char (n mod 10)) "").

Definition pad4 (n : Z) : string :=
  String (digit_char (n / 1000))
    (String (digit_char (n / 100 mod 10))
       (String (digit_char (n / 10 mod 10))
          (String (digit_char (n mod 10)) ""))).

(** [%Y] of the C library: four digits from year 1000 on, and no
    padding below (glibc). *)
Definition fmt_Y (y : Z) : string := if y <? 1000 then pretty y else pad4 y.

Definition month_abbr (m : Z) : string :=
  match m with
  | 1 => "Jan" | 2 => "Feb" | 3 => "Mar" | 4 => "Apr" | 5 => "May"
  | 6 => "Jun" | 7 => "Jul" | 8 => "Aug" | 9 => "Sep" | 10 => "Oct"
  | 11 => "Nov" | _ => "Dec"
  end.

Definition weekday_name (w : Z) : string :=
  match w with
  | 0 => "Monday" | 1 => "Tuesday" | 2 => "Wednesday" | 3 => "Thursday"
  | 4 => "Friday" | 5 => "Saturday" | _ => "Sunday"
  end.

(** [strftime("%d%m%Y")], [("%Y%m")], [("%Y%m%d")], [("%d-%b-%Y")],
    [("%Y-%m-%d")] and [("%A")]. *)
Definition strftime_dmY (d : date) : string :=
  pad2 (day d) +:+ pad2 (month d) +:+ fmt_Y (year d).
Definition strftime_Ym (d : date) : string :=
  fmt_Y (year d) +:+ pad2 (month d).
Definition strftime_Ymd (d : date) : string :=
  fmt_Y (year d) +:+ pad2 (month d) +:+ pad2 (day d).
Definition strftime_d_b_Y (d : date) : string :=
  pad2 (day d) +:+ "-" +:+ month_abbr (month d) +:+ "-" +:+ fmt_Y (year d).
Definition strftime_iso (d : date) : string :=
  fmt_Y (year d) +:+ "-" +:+ pad2 (month d) +:+ "-" +:+ pad2 (day d).
Definition strftime_A (d : date) : string := weekday_name (weekday d).

(** [str(d)], that is [d.isoformat()]: the year always has four digits. *)
Definition isoformat (d : date) : string :=
  pad4 (year d) +:+ "-" +:+ pad2 (month d) +:+ "-" +:+ pad2 (day d).

(** The fixed-width form [DDMMYYYY] of the filename convention. *)
Definition format_DDMMYYYY (d : date) : string :=
  pad2 (day d) +:+ pad2 (month d) +:+ pad4 (year d).

(** ** Parsing: [strptime]

    [_strptime] turns the format into a regular expression, matches it
    at the start of the text with backtracking ([re.match]), rejects a
    match that leaves text over, and then builds the date (which checks
    it).  A directive is modelled as the list of its ways to match a
    prefix of the text, in the order the regular expression tries them:

    - [%d] is [3[0-1]|[1-2]\d|0[1-9]|[1-9]| [1-9]],
    - [%m] is [1[0-2]|0[1-9]|[1-9]],
    - [%Y] is [\d\d\d\d].

    A class such as [[0-1]] holds ASCII digits only; [\d] matches the
    decimal digit of any script, and [int] reads it with its value. *)

Definition matcher (A : Type) : Type := text -> list (A * text).

(** One character of the class [[lo-hi]] of ASCII digits, with its value. *)
Definition digit_in (lo hi : Z) : matcher Z := fun t =>
  match t with
  | c :: r => if (lo <=? c) && (c <=? hi) then [(c - 48, r)] else []
  | [] => []
  end.

(** [\d] *)
Definition decimal : matcher Z := fun t =>
  match t with
  | c :: r => match decimal_value c with Some v => [(v, r)] | None => [] end
  | [] => []
  end.

Definition match_lit (c : Z) : matcher unit := fun t =>
  match t with
  | a :: r => if a =? c then [(tt, r)] else []
  | [] => []
  end.

(** Sequencing of matchers: the ways of the first, each continued by
    the ways of the second, in backtracking order. *)
Definition seq_match {A B} (p : matcher A) (q : A -> matcher B) : matcher B :=
  fun t => flat_map (fun '(a, r) => q a r) (p t).

Definition ret_match {A} (a : A) : matcher A := fun t => [(a, t)].

(** Two digits, read as a number. *)
Definition two_digits (p q : matcher Z) : matcher Z :=
  seq_match p (fun a => seq_match q (fun b => ret_match (10 * a + b))).

Definition SPACE : Z := 32.
Definition HYPHEN : Z := 45.

Definition match_d : matcher Z := fun t =>
  two_digits (digit_in 51 51) (digit_in 48 49) t
  ++ two_digits (digit_in 49 50) decimal t
  ++ two_digits (digit_in 48 48) (digit_in 49 57) t
  ++ digit_in 49 57 t
  ++ seq_match (match_lit SPACE) (fun _ => digit_in 49 57) t.

Definition match_m : matcher Z := fun t =>
  two_digits (digit_in 49 49) (digit_in 48 50) t
  ++ two_digits (digit_in 48 48) (digit_in 49 57) t
  ++ digit_in 49 57 t.

Definition match_Y : matcher Z :=
  seq_match decimal (fun a =>
    seq_match decimal (fun b =>
      seq_match decimal (fun c =>
        seq_match decimal (fun e =>
          ret_match (1000 * a + 100 * b + 10 * c + e))))).

(** The date is built from the first match, if it took the whole text. *)
Definition build_date (found : list (date * text)) : option date :=
  match found with
  | (d, []) :: _ => if valid_dateb d then Some d else None
  | _ => None
  end.

(** [datetime.strptime(s, "%d%m%Y").date()]; [None] is [ValueError]. *)
Definition strptime_dmY (t : text) : option date :=
  build_date
    (seq_match match_d (fun d =>
       seq_match match_m (fun m =>
         seq_match match_Y (fun y => ret_match (mkdate y m d)))) t).

(** [datetime.strptime(s, "%Y-%m-%d").date()]. *)
Definition strptime_iso (t : text) : option date :=
  build_date
    (seq_match match_Y (fun y =>
       seq_match (match_lit HYPHEN) (fun _ =>
         seq_match match_m (fun m =>
           seq_match (match_lit HYPHEN) (fun _ =>
             seq_match match_d (fun d => ret_match (mkdate y m d)))))) t).

(** ** What a text of eight characters reads as

    The reading of eight characters as a date by [%d%m%Y], said
    directly: two characters for the day, two for the month, four for
    the year.  The day is [01] to [31] in ASCII digits, where after a
    [1] or a [2] the decimal digit of any script will do, or a space
    and a digit from [1] to [9]; the month is [01] to [12] in ASCII
    digits; the year is four decimal digits of any script; and the
    three make a date of the calendar. *)

Definition ascii_in (lo hi c : Z) : bool := (lo <=? c) && (c <=? hi).

Definition tail_day (c1 c2 : Z) : option Z :=
  if c1 =? 51 then (if ascii_in 48 49 c2 then Some (30 + (c2 - 48)) else None)
  else if ascii_in 49 50 c1 then
    match decimal_value c2 with
    | Some v => Some (10 * (c1 - 48) + v)
    | None => None
    end
  else if (c1 =? 48) || (c1 =? SPACE) then
    (if ascii_in 49 57 c2 then Some (c2 - 48) else None)
  else None.

Definition tail_month (c3 c4 : Z) : option Z :=
  if c3 =? 49 then (if ascii_in 48 50 c4 then Some (10 + (c4 - 48)) else None)
  else if c3 =? 48 then (if ascii_in 49 57 c4 then Some (c4 - 48) else None)
  else None.

Definition tail_year (c5 c6 c7 c8 : Z) : option Z :=
  match decimal_value c5, decimal_value c6, decimal_value c7, decimal_value c8 with
  | Some a, Some b, Some c, Some e => Some (1000 * a + 100 * b + 10 * c + e)
  | _, _, _, _ => None
  end.

Definition tail_date (t : text) : option date :=
  match t with
  | [c1; c2; c3; c4; c5; c6; c7; c8] =>
      match tail_day c1 c2, tail_month c3 c4, tail_year c5 c6 c7 c8 with
      | Some d, Some m, Some y =>
          if valid_dateb (mkdate y m d) then Some (mkdate y m d) else None
      | _, _, _ => None
      end
  | _ => None
  end.

End Datetime.

Export Datetime.

(* ===================================================================== *)
(** * holidays/indian_holidays.py                                          *)
(* ===================================================================== *)

Module Holidays.

(** Fallback list of recurring national holidays, as (month, day). *)
Definition RECURRING_HOLIDAYS : list (Z * Z) :=
  [(1, 26); (5, 1); (8, 15); (10, 2); (12, 25)].

(** What [_loaded_holidays] holds once loaded: the set of dates read
    from the CSV file, or the list of (month, day) pairs. *)
Inductive holidays :=
| HolidaySet (s : gset date)
| HolidayPairs (l : list (Z * Z)).

Record HolidayManager := mkManager {
  _loaded_holidays : option holidays;
  _using_recurring : bool
}.

(** [HolidayManager()] *)
Definition new_manager : HolidayManager := mkManager None false.

(** The holiday file as [load_holidays] meets it once [exists()] has
    answered: absent, present but failing on [open] or while it is read
    (a file that is no UTF-8 text among others), or a sequence of lines
    of text. *)
Inductive holiday_file :=
| FileMissing
| FileUnreadable
| FileLines (lines : list string).

(** The argument of [is_public_holiday]: a [date] or a [datetime]. *)
Inductive date_like :=
| ADate (d : date)
| ADatetime (d : date) (hour minute second : Z).

Definition date_part (x : date_like) : date :=
  match x with ADate d => d | ADatetime d _ _ _ => d end.

(** What the [in] operator of the manager may be asked about. *)
Inductive item :=
| ItemDate (x : date_like)
| ItemPair (m d : Z).

(** The loop over the lines of the file: the line is taken without the
    white space at its ends; blank lines and lines that do not parse
    are passed over. *)
Fixpoint read_lines (lines : list string) (acc : gset date) : gset date :=
  match lines with
  | [] => acc
  | raw_line :: rest =>
      let line := strip (chars raw_line) in
      match line with
      | [] => read_lines rest acc
      | _ => match strptime_iso line with
             | Some d => read_lines rest ({[ d ]} ∪ acc)
             | None => read_lines rest acc
             end
      end
  end.

(** [load_holidays(holiday_file)]: the new state of the manager and the
    value returned. *)
Definition load_holidays (f : holiday_file) (self : HolidayManager)
  : HolidayManager * holidays :=
  match f with
  | FileMissing | FileUnreadable =>
      (mkManager (Some (HolidayPairs RECURRING_HOLIDAYS)) true,
       HolidayPairs RECURRING_HOLIDAYS)
  | FileLines lines =>
      let hs := HolidaySet (read_lines lines ∅) in
      (mkManager (Some hs) false, hs)
  end.

(** [get_holidays()]; [default_file] is the state of
    [DEFAULT_HOLIDAY_FILE] should the manager have to load it. *)
Definition get_holidays (default_file : holiday_file) (self : HolidayManager)
  : HolidayManager * holidays :=
  match _loaded_holidays self with
  | None => load_holidays default_file self
  | Some hs => (self, hs)
  end.

(** [(month, day) in holidays] *)
Definition pair_in (p : Z * Z) (hs : holidays) : bool :=
  match hs with
  | HolidayPairs l => bool_decide (p ∈ l)
  | HolidaySet _ => false
  end.

(** [date in holidays], for a [date] or a [datetime]: a [datetime]
    never equals a [date], and a date never equals a pair. *)
Definition date_in (x : date_like) (hs : holidays) : bool :=
  match x, hs with
  | ADate d, HolidaySet s => bool_decide (d ∈ s)
  | _, _ => false
  end.

Definition is_public_holiday (default_file : holiday_file)
    (self : HolidayManager) (x : date_like) : HolidayManager * bool :=
  let '(self, hs) := get_holidays default_file self in
  if _using_recurring self then
    (self, pair_in (month (date_part x), day (date_part x)) hs)
  else
    let d := date_part x in
    if date_in (ADate d) hs then (self, true)
    else (self, bool_decide ((month d, day d) ∈ RECURRING_HOLIDAYS)).

(** [item in manager] *)
Definition contains (default_file : holiday_file)
    (self : HolidayManager) (i : item) : HolidayManager * bool :=
  let '(self, hs) := get_holidays default_file self in
  let found := match i with
               | ItemDate x => date_in x hs
               | ItemPair m d => pair_in (m, d) hs
               end in
  if _using_recurring self then (self, found) else (self, found).

(** [get_holiday_name(month, day)] *)
Definition get_holiday_name (m d : Z) : option string :=
  match m, d with
  | 1, 26 => Some "Republic Day"
  | 5, 1 => Some "Labour Day"
  | 8, 15 => Some "Independence Day"
  | 10, 2 => Some "Gandhi Jayanti"
  | 12, 25 => Some "Christmas"
  | _, _ => None
  end.

(** A date on one of the five recurring (month, day) pairs. *)
Definition recurring_pair (d : date) : Prop :=
  (month d = 1 ∧ day d = 26) ∨ (month d = 5 ∧ day d = 1)
  ∨ (month d = 8 ∧ day d = 15) ∨ (month d = 10 ∧ day d = 2)
  ∨ (month d = 12 ∧ day d = 25).

(** The two modes of the oracle. *)
Definition authoritative (self : HolidayManager) (s : gset date) : Prop :=
  _loaded_holidays self = Some (HolidaySet s) ∧ _using_recurring self = false.

Definition recurring_mode (self : HolidayManager) : Prop :=
  _loaded_holidays self = Some (HolidayPairs RECURRING_HOLIDAYS)
  ∧ _using_recurring self = true.

(** The managers of the two modes. *)
Definition authoritative_manager (s : gset date) : HolidayManager :=
  mkManager (Some (HolidaySet s)) false.

Definition recurring_manager : HolidayManager :=
  mkManager (Some (HolidayPairs RECURRING_HOLIDAYS)) true.

End Holidays.

Export Holidays.

(* ===================================================================== *)
(** * The Python run time the pipelines use: exceptions, the filesystem,
      logging, the network trace and the clock                             *)
(* ===================================================================== *)

Module Py.

Definition bytes : Type := list Byte.byte.

#[global] Instance byte_eq_dec : EqDecision Byte.byte := Byte.byte_eq_dec.

Definition encode (s : string) : bytes := list_byte_of_string s.

(** The exception classes that occur, and an exception with its text.
    [InvalidURL] is both a [RequestException] and a [ValueError]. *)
Inductive exn_kind :=
| ValueError | TypeError | AttributeError | KeyError
| FileNotFoundError | FileExistsError | NotADirectoryError
| IsADirectoryError | SameFileError | OSError | OverflowError
| RequestException | InvalidURL | BadZipFile | ParserError.

Record exn := mkexn { kind : exn_kind; message : string }.

Inductive outcome (A : Type) :=
| Ok (a : A)
| Raise (e : exn).
Arguments Ok {A} a.
Arguments Raise {A} e.

(** ** Paths ([pathlib.Path]) as lists of components *)

Definition path_name (p : list string) : string := List.last p "".
Definition path_parent (p : list string) : list string := removelast p.
Definition path_str (p : list string) : string :=
  match p with [] => "." | _ => String.concat "/" p end.

(** [str.rfind(".")]: the position of the last dot. *)
Fixpoint rfind_dot (s : string) : option nat :=
  match s with
  | "" => None
  | String c r =>
      match rfind_dot r with
      | Some i => Some (S i)
      | None => if Ascii.eqb c "." then Some O else None
      end
  end.

(** [PurePath.stem]: the name without its last suffix; a leading or a
    trailing dot starts no suffix. *)
Definition name_stem (name : string) : string :=
  match rfind_dot name with
  | Some i =>
      if (0 <? i)%nat && (i <? String.length name - 1)%nat
      then substring 0 i name else name
  | None => name
  end.

Definition path_stem (p : list string) : string := name_stem (path_name p).

(** The last [n] bytes of a text. *)
Definition last_chars (n : nat) (s : string) : string :=
  substring (String.length s - n) n s.

Fixpoint path_strip_prefix (root p : list string) : option (list string) :=
  match root, p with
  | [], _ => Some p
  | a :: root', b :: p' => if String.eqb a b then path_strip_prefix root' p' else None
  | _ :: _, [] => None
  end.

(** ** The filesystem

    What is at a path: a file, a directory, or nothing that can be
    looked at, because a directory on the way denies the search or a
    name is too long.  Every operation on such a path raises the
    [OSError] of the system, whose text is kept ([[Errno 13] Permission
    denied], [[Errno 36] File name too long], ...). *)

Inductive node :=
| File (content : bytes)
| Dir
| Unreachable (error : string).

(** The size [stat] reports for a directory. *)
Definition DIR_SIZE : Z := 4096.

Inductive level := DEBUG | INFO | WARNING | LOG_ERROR.

#[global] Instance level_eq_dec : EqDecision level.
Proof. solve_decision. Defined.

(** The world outside the process: the files, the log written so far,
    the URLs asked of the session so far (oldest first; every call of
    [session.get] is noted, whatever became of it) and the clock in
    seconds. *)
Record World := mkWorld {
  fs : gmap (list string) node;
  log : list (level * string);
  requests : list string;
  clock : Z
}.

Definition set_fs (f : gmap (list string) node) (w : World) : World :=
  mkWorld f (log w) (requests w) (clock w).
Definition add_log (e : level * string) (w : World) : World :=
  mkWorld (fs w) (log w ++ [e]) (requests w) (clock w).
Definition add_request (u : string) (w : World) : World :=
  mkWorld (fs w) (log w) (requests w ++ [u]) (clock w).
Definition advance (n : Z) (w : World) : World :=
  mkWorld (fs w) (log w) (requests w) (clock w + n).

(** There is a file or a directory at [p]. *)
Definition fs_exists (f : gmap (list string) node) (p : list string) : bool :=
  match p with
  | [] => true
  | _ => match f !! p with Some (File _) | Some Dir => true | _ => false end
  end.

Definition fs_is_dir (f : gmap (list string) node) (p : list string) : bool :=
  match p with
  | [] => true
  | _ => match f !! p with Some Dir => true | _ => false end
  end.

Definition os_error (k : exn_kind) (text : string) (p : list string) : exn :=
  mkexn k (text +:+ ": '" +:+ path_str p +:+ "'").

Definition unreachable (text : string) := os_error OSError text.
Definition no_such_file := os_error FileNotFoundError "[Errno 2] No such file or directory".
Definition file_exists := os_error FileExistsError "[Errno 17] File exists".
Definition not_a_directory := os_error NotADirectoryError "[Errno 20] Not a directory".
Definition is_a_directory := os_error IsADirectoryError "[Errno 21] Is a directory".

(** The error that keeps a path from being looked at, if there is one. *)
Definition fs_denied (f : gmap (list string) node) (p : list string) : option exn :=
  match p with
  | [] => None
  | _ => match f !! p with
         | Some (Unreachable text) => Some (unreachable text p)
         | _ => None
         end
  end.

(** The error of an operation that needs the parent of [p] to be a
    directory. *)
Definition parent_error (f : gmap (list string) node) (p : list string) : exn :=
  if fs_exists f (path_parent p) then not_a_directory p else no_such_file p.

(** [p.stat().st_size] *)
Definition fs_stat_size (f : gmap (list string) node) (p : list string)
  : outcome Z :=
  match p with
  | [] => Ok DIR_SIZE
  | _ => match f !! p with
         | Some (File c) => Ok (Z.of_nat (List.length c))
         | Some Dir => Ok DIR_SIZE
         | Some (Unreachable text) => Raise (unreachable text p)
         | None => Raise (no_such_file p)
         end
  end.

(** [p.mkdir(exist_ok=True)] *)
Definition fs_mkdir (f : gmap (list string) node) (p : list string)
  : outcome (gmap (list string) node) :=
  match p with
  | [] => Ok f
  | _ => match f !! p with
         | Some Dir => Ok f
         | Some (File _) => Raise (file_exists p)
         | Some (Unreachable text) => Raise (unreachable text p)
         | None => if fs_is_dir f (path_parent p) then Ok (<[p := Dir]> f)
                   else Raise (parent_error f p)
         end
  end.

(** [p.mkdir(parents=True, exist_ok=True)]: the directories are made
    from the outermost on; [done] is the part of the path gone through. *)
Fixpoint fs_mkdir_from (f : gmap (list string) node) (done todo : list string)
  : outcome (gmap (list string) node) :=
  match todo with
  | [] => Ok f
  | c :: todo' =>
      let q := done ++ [c] in
      match f !! q with
      | Some Dir => fs_mkdir_from f q todo'
      | Some (File _) =>
          Raise (match todo' with
                 | [] => file_exists q
                 | _ => not_a_directory (q ++ todo')
                 end)
      | Some (Unreachable text) => Raise (unreachable text (q ++ todo'))
      | None => fs_mkdir_from (<[q := Dir]> f) q todo'
      end
  end.

Definition fs_mkdir_parents (f : gmap (list string) node) (p : list string)
  : outcome (gmap (list string) node) := fs_mkdir_from f [] p.

(** The directories of [todo] below [done] are all there. *)
Fixpoint all_dirs (f : gmap (list string) node) (done todo : list string) : Prop :=
  match todo with
  | [] => True
  | c :: todo' => f !! (done ++ [c]) = Some Dir ∧ all_dirs f (done ++ [c]) todo'
  end.

(** [open(p, "rb").read()] *)
Definition fs_read (f : gmap (list string) node) (p : list string)
  : outcome bytes :=
  match f !! p with
  | Some (File c) => Ok c
  | Some Dir => Raise (is_a_directory p)
  | Some (Unreachable text) => Raise (unreachable text p)
  | None => match p with [] => Raise (is_a_directory p) | _ => Raise (no_such_file p) end
  end.

(** [open(p, "wb").write(c)]: the file is made or replaced. *)
Definition fs_write (f : gmap (list string) node) (p : list string) (c : bytes)
  : outcome (gmap (list string) node) :=
  match p with
  | [] => Raise (is_a_directory p)
  | _ => match f !! p with
         | Some Dir => Raise (is_a_directory p)
         | Some (Unreachable text) => Raise (unreachable text p)
         | _ => if fs_is_dir f (path_parent p) then Ok (<[p := File c]> f)
                else Raise (parent_error f p)
         end
  end.

(** [p.unlink()] *)
Definition fs_unlink (f : gmap (list string) node) (p : list string)
  : outcome (gmap (list string) node) :=
  match f !! p with
  | Some (File _) => Ok (delete p f)
  | Some Dir => Raise (is_a_directory p)
  | Some (Unreachable text) => Raise (unreachable text p)
  | None => match p with [] => Raise (is_a_directory p) | _ => Raise (no_such_file p) end
  end.

(** [shutil.copy2(src, dst)] *)
Definition fs_copy2 (f : gmap (list string) node) (src dst : list string)
  : outcome (gmap (list string) node) :=
  let dst := if fs_is_dir f dst then dst ++ [path_name src] else dst in
  if bool_decide (src = dst) && fs_exists f src
  then Raise (mkexn SameFileError
                ("'" +:+ path_str src +:+ "' and '" +:+ path_str dst
                 +:+ "' are the same file"))
  else match fs_read f src with
       | Ok c => fs_write f dst c
       | Raise e => Raise e
       end.

(** ** Computations: state and exceptions

    A computation runs on the world and on the object [O] it is a method
    of; what it did up to an exception stays done. *)

Record st (O : Type) := mkst { world : World; self : O }.
Arguments mkst {O} world self.
Arguments world {O} s.
Arguments self {O} s.

Definition M (O A : Type) : Type := st O -> outcome A * st O.

Definition ret {O A : Type} (a : A) : M O A := fun s => (Ok a, s).

Definition bind {O A B : Type} (m : M O A) (k : A -> M O B) : M O B :=
  fun s => match m s with
           | (Ok a, s') => k a s'
           | (Raise e, s') => (Raise e, s')
           end.

Definition raise {O A : Type} (e : exn) : M O A := fun s => (Raise e, s).

(** [try: m except Exception as e: h e] *)
Definition try_except {O A : Type} (m : M O A) (h : exn -> M O A) : M O A :=
  fun s => match m s with
           | (Ok a, s') => (Ok a, s')
           | (Raise e, s') => h e s'
           end.

Definition get_self {O : Type} : M O O := fun s => (Ok (self s), s).
Definition set_self {O : Type} (o : O) : M O unit := fun s => (Ok tt, mkst (world s) o).
Definition get_world {O : Type} : M O World := fun s => (Ok (world s), s).
Definition set_world {O : Type} (w : World) : M O unit := fun s => (Ok tt, mkst w (self s)).

End Py.

Export Py.

Declare Scope py_scope.
Delimit Scope py_scope with py.
Notation "x <- m ;; k" := (bind m (fun x => k))
  (at level 100, m at next level, right associativity) : py_scope.
Notation "m ;;; k" := (bind m (fun _ => k))
  (at level 100, right associativity) : py_scope.
Local Open Scope py_scope.

Module PyIO.

(** The world operations as computations. *)

Definition logmsg {O : Type} (l : level) (msg : string) : M O unit :=
  w <- get_world ;; set_world (add_log (l, msg) w).

(** An operation on the files that may fail and changes them. *)
Definition fs_update {O : Type}
    (op : gmap (list string) node -> outcome (gmap (list string) node))
  : M O unit :=
  w <- get_world ;;
  match op (fs w) with
  | Ok f => set_world (set_fs f w)
  | Raise e => raise e
  end.

(** An operation that only looks at the files. *)
Definition fs_query {O A : Type} (op : gmap (list string) node -> outcome A) : M O A :=
  w <- get_world ;;
  match op (fs w) with
  | Ok a => ret a
  | Raise e => raise e
  end.

(** [p.exists()]: an error other than "no such file" and its like is
    raised again. *)
Definition path_exists {O : Type} (p : list string) : M O bool :=
  w <- get_world ;;
  match fs_denied (fs w) p with
  | Some e => raise e
  | None => ret (fs_exists (fs w) p)
  end.

(** [os.path.exists(p)]: [False] on every error. *)
Definition os_path_exists {O : Type} (p : list string) : M O bool :=
  w <- get_world ;; ret (fs_exists (fs w) p).

Definition stat_size {O : Type} (p : list string) : M O Z :=
  fs_query (fun f => fs_stat_size f p).
Definition mkdir {O : Type} (p : list string) : M O unit :=
  fs_update (fun f => fs_mkdir f p).
Definition mkdir_parents {O : Type} (p : list string) : M O unit :=
  fs_update (fun f => fs_mkdir_parents f p).
Definition read_file {O : Type} (p : list string) : M O bytes :=
  fs_query (fun f => fs_read f p).
Definition write_file {O : Type} (p : list string) (c : bytes) : M O unit :=
  fs_update (fun f => fs_write f p c).
Definition unlink {O : Type} (p : list string) : M O unit :=
  fs_update (fun f => fs_unlink f p).
Definition copy2 {O : Type} (src dst : list string) : M O unit :=
  fs_update (fun f => fs_copy2 f src dst).

(** [p.relative_to(root)] *)
Definition relative_to {O : Type} (p root : list string) : M O (list string) :=
  match path_strip_prefix root p with
  | Some r => ret r
  | None => raise (mkexn ValueError
                     ("'" +:+ path_str p +:+ "' is not in the subpath of '"
                      +:+ path_str root +:+ "'"))
  end.

(** [time.time()] and [time.sleep(n)] *)
Definition time {O : Type} : M O Z := w <- get_world ;; ret (clock w).
Definition sleep {O : Type} (n : Z) : M O unit :=
  w <- get_world ;; set_world (advance n w).

End PyIO.

Export PyIO.

(* ===================================================================== *)
(** * CSV text as [csv.DictWriter] writes it                               *)
(* ===================================================================== *)

Module Csv.

Definition QUOTE : ascii := ascii_of_nat 34.
Definition CR : ascii := ascii_of_nat 13.
Definition LF : ascii := ascii_of_nat 10.

Fixpoint needs_quotes (s : string) : bool :=
  match s with
  | "" => false
  | String c r =>
      Ascii.eqb c "," || Ascii.eqb c QUOTE || Ascii.eqb c CR || Ascii.eqb c LF
      || needs_quotes r
  end.

Fixpoint double_quotes (s : string) : string :=
  match s with
  | "" => ""
  | String c r =>
      if Ascii.eqb c QUOTE then String c (String c (double_quotes r))
      else String c (double_quotes r)
  end.

Definition csv_field (s : string) : string :=
  if needs_quotes s
  then String QUOTE (double_quotes s) +:+ String QUOTE ""
  else s.

Definition csv_line (fields : list string) : string :=
  String.concat "," (map csv_field fields) +:+ String CR (String LF "").

Definition csv_text (header : list string) (rows : list (list string)) : string :=
  String.concat "" (map csv_line (header :: rows)).

End Csv.

Export Csv.

(* ===================================================================== *)
(** * gcp_upload/create_local_structure.py                                 *)
(* ===================================================================== *)

Module Convert.

Definition LOG_FOLDER : list string := ["logs"].

(** The date the name of a file ends in: the last eight characters of
    the stem, read as day, month, year. *)
Definition file_date (filepath : list string) : option date :=
  let stem := path_stem filepath in
  let date_str := last_n 8 (chars stem) in
  strptime_dmY date_str.

Definition _get_file_datetime_from_name {O : Type} (filepath : list string)
  : M O (option date) :=
  match file_date filepath with
  | Some trade_date => ret (Some trade_date)
  | None =>
      logmsg LOG_ERROR ("Cannot parse date from filename: " +:+ path_str filepath) ;;;
      ret None
  end.

(** ** [ProcessingTracker] *)

Definition STATUS_FILENAME : string := "file_processing_status.csv".

Inductive Status := SUCCESS | SKIPPED | ERROR.

Definition Status_value (s : Status) : string :=
  match s with
  | SUCCESS => "Success"
  | SKIPPED => "Skipped"
  | ERROR => "Error"
  end.

Definition Status_str (s : Status) : string :=
  match s with
  | SUCCESS => "Status.SUCCESS"
  | SKIPPED => "Status.SKIPPED"
  | ERROR => "Status.ERROR"
  end.

#[global] Instance Status_eq_dec : EqDecision Status.
Proof. solve_decision. Defined.

#[global] Instance Status_countable : Countable Status.
Proof.
  refine (inj_countable'
            (fun s => match s with SUCCESS => 0%nat | SKIPPED => 1%nat | ERROR => 2%nat end)
            (fun n => match n with 0%nat => SUCCESS | 1%nat => SKIPPED | _ => ERROR end) _).
  by intros [].
Defined.

(** The shape column: the default [0], or the [(rows, columns)] of the
    table read. *)
Inductive file_shape :=
| NoShape
| Shape (nrows ncols : Z).

(** A row of the ledger, with the columns of the [StatusRecord] enum. *)
Record StatusRecord := mkRecord {
  FILE_NAME : string;
  PROCESSING_STATUS : string;
  OUTPUT_FILE_NAME : string;
  FILE_DATE : string;
  WEEKDAY : string;
  INPUT_FILE_SIZE : Z;
  OUTPUT_FILE_SIZE : Z;
  INPUT_FILE_SHAPE : file_shape;
  INPUT_FILE_PATH : string;
  OUTPUT_FILE_PATH : string;
  COPIED_INPUT_FILE_PATH : string
}.

Record ProcessingTracker := mkTracker {
  records : list StatusRecord;
  stats : gmap Status Z;
  _input_root_path : list string;
  _output_root_path : list string
}.

(** [ProcessingTracker(input_root_path, output_root_path)] *)
Definition new_tracker (input_root_path output_root_path : list string)
  : ProcessingTracker :=
  mkTracker [] (<[SUCCESS := 0]> (<[SKIPPED := 0]> (<[ERROR := 0]> ∅)))
            input_root_path output_root_path.

(** [self.records.append(r)] and the update of the statistics. *)
Definition append_record (r : StatusRecord) (status : Status)
    (self : ProcessingTracker) : ProcessingTracker :=
  mkTracker (records self ++ [r])
            (match stats self !! status with
             | Some n => <[status := n + 1]> (stats self)
             | None => stats self
             end)
            (_input_root_path self) (_output_root_path self).

(** The relative path of an optional file, as text. *)
Definition relative_str {O : Type} (p : option (list string)) (root : list string)
  : M O string :=
  match p with
  | Some q => r <- relative_to q root ;; ret (path_str r)
  | None => ret ""
  end.

Definition add_record (input_filepath : list string) (status : Status)
    (output_filepath : option (list string)) (input_file_shape : file_shape)
    (copied_input_filepath : option (list string)) : M ProcessingTracker unit :=
  input_filesize <- stat_size input_filepath ;;
  output_size <- match output_filepath with
                 | Some out =>
                     there <- path_exists out ;;
                     if there then stat_size out else ret 0
                 | None => ret 0
                 end ;;
  let output_filename :=
    match output_filepath with Some out => path_name out | None => "" end in
  self <- get_self ;;
  input_relative <- relative_to input_filepath (_input_root_path self) ;;
  let input_relative_path := path_str input_relative in
  output_relative_path <- relative_str output_filepath (_output_root_path self) ;;
  copied_input_relative_path <-
    relative_str copied_input_filepath (_output_root_path self) ;;
  date_for_display <- _get_file_datetime_from_name input_filepath ;;
  let '(file_date_str, weekday) :=
    match date_for_display with
    | Some d => (strftime_iso d, strftime_A d)
    | None => ("N/A", "N/A")
    end in
  self <- get_self ;;
  set_self
    (append_record
       (mkRecord (path_name input_filepath) (Status_value status)
          output_filename file_date_str weekday input_filesize output_size
          input_file_shape input_relative_path output_relative_path
          copied_input_relative_path)
       status self) ;;;
  logmsg DEBUG ("Recorded " +:+ Status_str status +:+ " status for "
                +:+ path_name input_filepath +:+ " (input: "
                +:+ pretty input_filesize +:+ " bytes, output: "
                +:+ pretty output_size +:+ " bytes)").

(** ** The status report *)

Definition fieldnames : list string :=
  ["File name"; "Processing status"; "Output file name"; "File date";
   "Weekday"; "Input file size"; "Output file size"; "Input file shape";
   "Input file path"; "Output file path"; "Copied input file path"].

Definition shape_str (sh : file_shape) : string :=
  match sh with
  | NoShape => "0"
  | Shape r c => "(" +:+ pretty r +:+ ", " +:+ pretty c +:+ ")"
  end.

Definition record_fields (r : StatusRecord) : list string :=
  [FILE_NAME r; PROCESSING_STATUS r; OUTPUT_FILE_NAME r; FILE_DATE r;
   WEEKDAY r; pretty (INPUT_FILE_SIZE r); pretty (OUTPUT_FILE_SIZE r);
   shape_str (INPUT_FILE_SHAPE r); INPUT_FILE_PATH r; OUTPUT_FILE_PATH r;
   COPIED_INPUT_FILE_PATH r].

(** [sum(self.stats.values())] *)
Definition stats_total (stats : gmap Status Z) : Z :=
  map_fold (fun _ n acc => n + acc) 0 stats.

Definition print_summary : M ProcessingTracker unit :=
  self <- get_self ;;
  let total_files := stats_total (stats self) in
  let rule := "============================================================" in
  logmsg INFO rule ;;;
  logmsg INFO "PROCESSING SUMMARY" ;;;
  logmsg INFO rule ;;;
  logmsg INFO ("Total Files Processed: " +:+ pretty total_files) ;;;
  logmsg INFO ("  - Success: " +:+ pretty (stats self !!! SUCCESS)) ;;;
  logmsg INFO ("  - Skipped: " +:+ pretty (stats self !!! SKIPPED)) ;;;
  logmsg INFO ("  - Error: " +:+ pretty (stats self !!! ERROR)) ;;;
  logmsg INFO rule.

(** ** Sequences of calls of [add_record]

    A call with its arguments; a sequence of calls goes on after a call
    that raised, as the pipeline does when it catches the exception. *)
Record call := mkCall {
  call_input : list string;
  call_status : Status;
  call_output : option (list string);
  call_shape : file_shape;
  call_copied : option (list string)
}.

Definition do_call (c : call) : M ProcessingTracker unit :=
  add_record (call_input c) (call_status c) (call_output c) (call_shape c)
             (call_copied c).

Fixpoint run_calls (cs : list call) (s : st ProcessingTracker)
  : st ProcessingTracker :=
  match cs with
  | [] => s
  | c :: rest => run_calls rest (do_call c s).2
  end.

(** The statistics with the three counters at the given values. *)
Definition counts (a b c : Z) : gmap Status Z :=
  <[SUCCESS := a]> (<[SKIPPED := b]> (<[ERROR := c]> ∅)).

(** The ledger is in step: the three counters are there and sum to the
    number of records. *)
Definition tracker_inv (t : ProcessingTracker) : Prop :=
  exists a b c,
    stats t = counts a b c ∧ a + b + c = Z.of_nat (List.length (records t)).

(** [for x in l: body x] *)
Fixpoint for_each {O A : Type} (l : list A) (body : A -> M O unit) : M O unit :=
  match l with
  | [] => ret tt
  | x :: rest => body x ;;; for_each rest body
  end.

(** ** The run of the conversion

    The parts taken from outside the repository: the text of the start
    time of the script, the recursive glob of [pathlib], the CSV reader
    and the Parquet writer of pandas. *)

Record DataFrame := mkDataFrame {
  df_columns : list string;
  df_rows : list (list string)
}.

Definition df_shape (df : DataFrame) : file_shape :=
  Shape (Z.of_nat (List.length (df_rows df))) (Z.of_nat (List.length (df_columns df))).

(** What a write of a Parquet file comes to: the bytes of the whole
    file, or an exception with what it left at the destination ([None]:
    the destination was not touched). *)
Inductive write_result :=
| Written (content : bytes)
| WriteFailed (e : exn) (left_behind : option bytes).

Section Pipeline.

Variable SCRIPT_START_DATETIME : string.
Variable rglob : gmap (list string) node -> list string -> string -> list (list string).
Variable parse_csv : bytes -> outcome DataFrame.
Variable encode_parquet : DataFrame -> write_result.

(** [pd.read_csv(path)] *)
Definition read_csv (path : list string) : M ProcessingTracker DataFrame :=
  c <- read_file path ;;
  match parse_csv c with
  | Ok df => ret df
  | Raise e => raise e
  end.

(** [df.to_parquet(path, engine="pyarrow", index=False)] *)
Definition to_parquet (df : DataFrame) (path : list string)
  : M ProcessingTracker unit :=
  match encode_parquet df with
  | Written c => write_file path c
  | WriteFailed e None => raise e
  | WriteFailed e (Some partial) => write_file path partial ;;; raise e
  end.

Definition status_csv_path : list string :=
  LOG_FOLDER ++ ["file_processing_status-" +:+ SCRIPT_START_DATETIME +:+ ".csv"].

Definition save_to_csv : M ProcessingTracker unit :=
  there <- os_path_exists status_csv_path ;;
  if there then
    logmsg WARNING ("Status report file already exists: " +:+ path_str status_csv_path)
  else
    try_except
      (self <- get_self ;;
       write_file status_csv_path
         (encode (csv_text fieldnames (map record_fields (records self)))) ;;;
       logmsg INFO ("Status report saved to: " +:+ path_str status_csv_path +:+ " ("
                    +:+ pretty (Z.of_nat (List.length (records self))) +:+ " records)"))
      (fun e =>
         logmsg LOG_ERROR ("Failed to save status report to "
                           +:+ path_str status_csv_path +:+ ": " +:+ message e) ;;;
         raise e).

Definition raw_out_dir (output_root_path : list string) (trade_date : date)
  : list string :=
  output_root_path ++ ["raw"; "cm"; "year=" +:+ pretty (year trade_date);
                       "month=" +:+ pad2 (month trade_date)].

Definition curated_out_dir (output_root_path : list string) (trade_date : date)
  : list string :=
  output_root_path ++ ["curated"; "cm"; "year=" +:+ pretty (year trade_date);
                       "month=" +:+ pad2 (month trade_date)].

Definition out_file_parquet (output_root_path : list string) (trade_date : date)
  : list string :=
  curated_out_dir output_root_path trade_date
    ++ ["day=" +:+ pad2 (day trade_date) +:+ ".parquet"].

(** The last stage of a file: the body of the [try], which reads the
    CSV, writes the Parquet file and records the success, and the
    handler of its exceptions. *)
Definition convert_body (raw_root_path : list string)
    (input_csv_path out_file copied_input_path : list string)
  : M ProcessingTracker unit :=
  rel <- relative_to input_csv_path raw_root_path ;;
  logmsg INFO ("[PROCESS] " +:+ path_str rel +:+ " -> " +:+ path_str out_file) ;;;
  df <- read_csv input_csv_path ;;
  to_parquet df out_file ;;;
  add_record input_csv_path SUCCESS (Some out_file) (df_shape df)
             (Some copied_input_path).

Definition convert_handler (raw_root_path : list string)
    (input_csv_path copied_input_path : list string) (e : exn)
  : M ProcessingTracker unit :=
  rel <- relative_to input_csv_path raw_root_path ;;
  logmsg LOG_ERROR ("[ERROR] Failed to process " +:+ path_str rel +:+ ": "
                    +:+ message e) ;;;
  add_record input_csv_path ERROR None NoShape (Some copied_input_path).

Definition convert_file (raw_root_path : list string)
    (input_csv_path out_file copied_input_path : list string)
  : M ProcessingTracker unit :=
  try_except
    (convert_body raw_root_path input_csv_path out_file copied_input_path)
    (convert_handler raw_root_path input_csv_path copied_input_path).

(** The stage after the copy: the curated directory, the skip of a day
    that is there already, and the conversion. *)
Definition curate_file (raw_root_path output_root_path : list string)
    (force : bool) (input_csv_path : list string) (trade_date : date)
    (copied_input_path : list string) : M ProcessingTracker unit :=
  mkdir_parents (curated_out_dir output_root_path trade_date) ;;;
  let out_file := out_file_parquet output_root_path trade_date in
  there <- path_exists out_file ;;
  if negb force && there then
    rel <- relative_to out_file output_root_path ;;
    logmsg INFO ("[SKIP] Parquet already exists for " +:+ isoformat trade_date
                 +:+ ": " +:+ path_str rel) ;;;
    add_record input_csv_path SKIPPED (Some out_file) NoShape
               (Some copied_input_path)
  else
    convert_file raw_root_path input_csv_path out_file copied_input_path.

(** The body of the loop over the input files. *)
Definition process_file (raw_root_path output_root_path : list string)
    (force : bool) (input_csv_path : list string) : M ProcessingTracker unit :=
  trade_date <- _get_file_datetime_from_name input_csv_path ;;
  match trade_date with
  | None =>
      rel <- relative_to input_csv_path raw_root_path ;;
      logmsg LOG_ERROR ("[ERROR] Cannot parse date from filename: " +:+ path_str rel) ;;;
      add_record input_csv_path ERROR None NoShape None
  | Some trade_date =>
      let raw_dir := raw_out_dir output_root_path trade_date in
      mkdir_parents raw_dir ;;;
      let copied_input_path := raw_dir ++ [path_name input_csv_path] in
      there <- path_exists copied_input_path ;;
      go_on <-
        (if force || negb there then
           try_except
             (copy2 input_csv_path copied_input_path ;;;
              rel <- relative_to copied_input_path output_root_path ;;
              logmsg INFO ("[COPY] Copied input file to: " +:+ path_str rel) ;;;
              ret true)
             (fun e =>
                rel_in <- relative_to input_csv_path raw_root_path ;;
                rel_out <- relative_to copied_input_path output_root_path ;;
                logmsg LOG_ERROR ("[ERROR] Failed to copy input file "
                                  +:+ path_str rel_in +:+ " to " +:+ path_str rel_out
                                  +:+ ": " +:+ message e) ;;;
                add_record input_csv_path ERROR None NoShape None ;;;
                ret false)
         else
           rel <- relative_to copied_input_path output_root_path ;;
           logmsg INFO ("[SKIP] Input file already exists at " +:+ path_str rel) ;;;
           ret true) ;;
      if go_on
      then curate_file raw_root_path output_root_path force input_csv_path
                       trade_date copied_input_path
      else ret tt
  end.

Definition _build_daily_parquet (raw_root output_root : list string)
    (pattern : string) (force : bool) : M ProcessingTracker unit :=
  w <- get_world ;;
  let input_csv_files := rglob (fs w) raw_root pattern in
  match input_csv_files with
  | [] =>
      logmsg WARNING ("No CSV files matching '" +:+ pattern +:+ "' found under "
                      +:+ path_str raw_root)
  | _ =>
      logmsg INFO ("Found " +:+ pretty (Z.of_nat (List.length input_csv_files))
                   +:+ " CSV files under " +:+ path_str raw_root) ;;;
      set_self (new_tracker raw_root output_root) ;;;
      for_each input_csv_files (process_file raw_root output_root force) ;;;
      save_to_csv ;;;
      print_summary ;;;
      logmsg INFO "Done building daily Parquet files."
  end.

End Pipeline.

(** ** What the ledger says of a file, for the statements below *)

(** The record of a file that could not be converted: no output, no
    shape, and the date the name gives. *)
Definition error_record (input_csv_path : list string) (input_filesize : Z)
    (input_relative copied_relative : list string) : StatusRecord :=
  mkRecord (path_name input_csv_path) (Status_value ERROR) ""
    (match file_date input_csv_path with Some d => strftime_iso d | None => "N/A" end)
    (match file_date input_csv_path with Some d => strftime_A d | None => "N/A" end)
    input_filesize 0 NoShape (path_str input_relative) ""
    (path_str copied_relative).

(** The copy of a file in the raw partition of its date. *)
Definition copied_path (output_root_path : list string) (d : date)
    (input_csv_path : list string) : list string :=
  raw_out_dir output_root_path d ++ [path_name input_csv_path].

(** A file is settled in the files [f] when its date is read from its
    name, the directories of its date are made, its copy and its
    curated file are there, and it is there itself, below the root of
    the input. *)
Definition settled (raw_root_path output_root_path input_csv_path : list string)
    (f : gmap (list string) node) : Prop :=
  exists d,
    file_date input_csv_path = Some d
    ∧ all_dirs f [] (raw_out_dir output_root_path d)
    ∧ all_dirs f [] (curated_out_dir output_root_path d)
    ∧ fs_exists f (copied_path output_root_path d input_csv_path) = true
    ∧ fs_exists f (out_file_parquet output_root_path d) = true
    ∧ (exists n, fs_stat_size f input_csv_path = Ok n)
    ∧ is_Some (path_strip_prefix raw_root_path input_csv_path).

(** The tracker of a run over these roots. *)
Definition tracker_roots (raw_root_path output_root_path : list string)
    (t : ProcessingTracker) : Prop :=
  _input_root_path t = raw_root_path ∧ _output_root_path t = output_root_path.

(** What a record of a run says of its file: its name, and an error
    when the name gives no date. *)
Definition record_of (p : list string) (r : StatusRecord) : Prop :=
  FILE_NAME r = path_name p
  ∧ (file_date p = None -> PROCESSING_STATUS r = "Error").

(** The file of the record has its curated output: it was converted in
    this run, or passed over as converted before. *)
Definition converted (r : StatusRecord) : Prop :=
  PROCESSING_STATUS r = "Success" ∨ PROCESSING_STATUS r = "Skipped".

(** A text is carried by a record when it is one of its columns. *)
Definition record_carries (r : StatusRecord) (text : string) : Prop :=
  text ∈ record_fields r.

End Convert.

(* ===================================================================== *)
(** * nse_download/download_nse_data_headless.py                           *)
(* ===================================================================== *)

Module Download.

Definition BASE_LOG_DIR : list string := ["logs"].

(** [s.endswith(suffix)] and [sub in s] *)
Definition ends_with (suffix s : string) : bool :=
  String.eqb (last_chars (String.length suffix) s) suffix
  && (String.length suffix <=? String.length s)%nat.

Fixpoint contains_sub (sub s : string) : bool :=
  String.prefix sub s
  || match s with
     | "" => false
     | String _ r => contains_sub sub r
     end.

(** ** [StatusLogger] *)

Record status_entry := mkEntry {
  entry_date : string;
  entry_status : string;
  entry_reason : string;
  entry_file_path : string;
  entry_file_size : Z;
  entry_file_shape : string
}.

Definition tuple_str (t : Z * Z) : string :=
  "(" +:+ pretty t.1 +:+ ", " +:+ pretty t.2 +:+ ")".

(** The entry [add_status] appends. *)
Definition make_entry (date status reason : string)
    (file_path : option (list string)) (file_size : option Z)
    (file_shape : option (Z * Z)) : status_entry :=
  mkEntry date status reason
    (match file_path with Some p => path_str p | None => "" end)
    (match file_size with Some n => n | None => 0 end)
    (match file_shape with Some t => tuple_str t | None => "" end).

Definition entry_fields (e : status_entry) : list string :=
  [entry_date e; entry_status e; entry_reason e; entry_file_path e;
   pretty (entry_file_size e); entry_file_shape e].

Definition status_fieldnames : list string :=
  ["date"; "status"; "reason"; "file_path"; "file_size"; "file_shape"].

(** ** [NSEBhavcopyDownloader] *)

Definition BASE_URL : string := "https://www.nseindia.com/api/reports".
Definition HOME_URL : string := "https://www.nseindia.com".
Definition HTTP_STATUS_NOT_FOUND : Z := 404.
Definition HTTP_STATUS_OK : Z := 200.
Definition WEEKEND_START : Z := 5.
Definition COOKIE_REFRESH_INTERVAL : Z := 300.

(** The downloader with its status logger: [statuses] is
    [self.status_logger.statuses], and a failed date is its date text
    and its reason. *)
Record NSEBhavcopyDownloader := mkDownloader {
  output_dir : list string;
  existing_dir : option (list string);
  failed_dates : list (string * string);
  skipped_dates : list string;
  statuses : list status_entry;
  _last_cookie_time : Z
}.

Definition set_failed (l : list (string * string)) (d : NSEBhavcopyDownloader) :=
  mkDownloader (output_dir d) (existing_dir d) l (skipped_dates d)
               (statuses d) (_last_cookie_time d).
Definition set_skipped (l : list string) (d : NSEBhavcopyDownloader) :=
  mkDownloader (output_dir d) (existing_dir d) (failed_dates d) l
               (statuses d) (_last_cookie_time d).
Definition set_statuses (l : list status_entry) (d : NSEBhavcopyDownloader) :=
  mkDownloader (output_dir d) (existing_dir d) (failed_dates d) (skipped_dates d)
               l (_last_cookie_time d).
Definition set_cookie_time (t : Z) (d : NSEBhavcopyDownloader) :=
  mkDownloader (output_dir d) (existing_dir d) (failed_dates d) (skipped_dates d)
               (statuses d) t.

(** [self.status_logger.add_status(...)] *)
Definition add_status (date status reason : string)
    (file_path : option (list string)) (file_size : option Z)
    (file_shape : option (Z * Z)) : M NSEBhavcopyDownloader unit :=
  self <- get_self ;;
  set_self (set_statuses
              (statuses self
               ++ [make_entry date status reason file_path file_size file_shape])
              self).

(** [self.failed_dates.append({"date": d, "reason": r})] *)
Definition add_failed (date reason : string) : M NSEBhavcopyDownloader unit :=
  self <- get_self ;;
  set_self (set_failed (failed_dates self ++ [(date, reason)]) self).

Definition add_skipped (date : string) : M NSEBhavcopyDownloader unit :=
  self <- get_self ;;
  set_self (set_skipped (skipped_dates self ++ [date]) self).

(** What the remote side answers to a request. *)
Record response := mkResponse {
  status_code : Z;
  content_type : string;
  content : bytes
}.

(** What becomes of a request: the connection fails (a
    [RequestException]), the URL is refused before anything is sent
    ([InvalidURL]), or the remote side answers. *)
Inductive http_result :=
| ConnectionFailed (msg : string)
| UrlRefused (msg : string)
| Answer (r : response).

Definition archives_encoded : string :=
  "%5B%7B%22name%22%3A%22Full%20Bhavcopy%20and%20Security%20Deliverable%20data%22%2C%22type%22%3A%22daily-reports%22%2C%22category%22%3A%22capital-market%22%2C%22section%22%3A%22equities%22%7D%5D".

Definition _build_url (date : date) : string :=
  BASE_URL +:+ "?archives=" +:+ archives_encoded +:+ "&date="
  +:+ strftime_d_b_Y date +:+ "&type=Archives".

Definition expected_name (date : date) : string :=
  "sec_bhavdata_full_" +:+ strftime_dmY date +:+ ".csv".

Definition PK : bytes := [Byte.x50; Byte.x4b].

(** ** The payload of the old form of the answer

    A JSON value as [response.json()] gives it; of a float only whether
    it is zero matters here.  The entries of a [dict] have distinct
    keys. *)
Unset Elimination Schemes.
Inductive json :=
| JNull
| JBool (b : bool)
| JInt (n : Z)
| JFloat (zero : bool)
| JStr (s : string)
| JList (items : list json)
| JDict (entries : list (string * json)).
Set Elimination Schemes.

(** [type(v).__name__] *)
Definition type_name (v : json) : string :=
  match v with
  | JNull => "NoneType"
  | JBool _ => "bool"
  | JInt _ => "int"
  | JFloat _ => "float"
  | JStr _ => "str"
  | JList _ => "list"
  | JDict _ => "dict"
  end.

(** [bool(v)] *)
Definition truthy (v : json) : bool :=
  match v with
  | JNull => false
  | JBool b => b
  | JInt n => negb (n =? 0)
  | JFloat zero => negb zero
  | JStr s => negb (String.eqb s "")
  | JList items => match items with [] => false | _ => true end
  | JDict entries => match entries with [] => false | _ => true end
  end.

Definition type_error (text : string) : exn := mkexn TypeError text.

(** [len(v)] *)
Definition py_len (v : json) : outcome Z :=
  match v with
  | JStr s => Ok (Z.of_nat (List.length (split_chars s)))
  | JList items => Ok (Z.of_nat (List.length items))
  | JDict entries => Ok (Z.of_nat (List.length entries))
  | _ => Raise (type_error ("object of type '" +:+ type_name v +:+ "' has no len()"))
  end.

(** [for item in v]: the characters of a text, the items of a list, the
    keys of a dict. *)
Definition py_iter (v : json) : outcome (list json) :=
  match v with
  | JStr s => Ok (map JStr (split_chars s))
  | JList items => Ok items
  | JDict entries => Ok (map (fun kv => JStr kv.1) entries)
  | _ => Raise (type_error ("'" +:+ type_name v +:+ "' object is not iterable"))
  end.

Definition is_text (s : string) (v : json) : bool :=
  match v with JStr t => String.eqb t s | _ => false end.

(** [key in v] for a text [key]: a part of a text, an item of a list, a
    key of a dict. *)
Definition py_contains (key : string) (v : json) : outcome bool :=
  match v with
  | JStr s => Ok (contains_sub key s)
  | JList items => Ok (existsb (is_text key) items)
  | JDict entries => Ok (existsb (fun kv => String.eqb kv.1 key) entries)
  | _ => Raise (type_error ("argument of type '" +:+ type_name v
                            +:+ "' is not iterable"))
  end.

(** [v[key]] for a text [key]. *)
Definition py_getitem (key : string) (v : json) : outcome json :=
  match v with
  | JDict entries =>
      match List.find (fun kv => String.eqb kv.1 key) entries with
      | Some kv => Ok kv.2
      | None => Raise (mkexn KeyError ("'" +:+ key +:+ "'"))
      end
  | JStr _ => Raise (type_error "string indices must be integers, not 'str'")
  | JList _ => Raise (type_error "list indices must be integers or slices, not str")
  | _ => Raise (type_error ("'" +:+ type_name v +:+ "' object is not subscriptable"))
  end.

(** [v.endswith(suffix)] *)
Definition py_endswith (suffix : string) (v : json) : outcome bool :=
  match v with
  | JStr s => Ok (ends_with suffix s)
  | _ => Raise (mkexn AttributeError
                  ("'" +:+ type_name v +:+ "' object has no attribute 'endswith'"))
  end.

Definition text_of (v : json) : string :=
  match v with JStr s => s | _ => "" end.

Section Pipeline.

(** The parts taken from outside the repository: the remote side, the
    decoders of a JSON payload ([None] is the [ValueError] of a text
    that is no JSON) and of a zip archive (its
    members; [None] is [BadZipFile]), the reader of [csv], the writer of
    [json], and the text of the wall clock. *)
Variable server : string -> http_result.
Variable json_decode : bytes -> option json.
Variable zip_decode : bytes -> option (list (string * bytes)).
Variable csv_rows : bytes -> outcome (list (list string)).
Variable json_dump : list (string * string) -> string.
Variable now_stamp : Z -> string.

(** [self.session.get(url)] *)
Definition session_get (url : string) : M NSEBhavcopyDownloader response :=
  w <- get_world ;;
  set_world (add_request url w) ;;;
  match server url with
  | ConnectionFailed msg => raise (mkexn RequestException msg)
  | UrlRefused msg => raise (mkexn InvalidURL msg)
  | Answer r => ret r
  end.

Definition _get_cookie : M NSEBhavcopyDownloader bool :=
  try_except
    (r <- session_get HOME_URL ;; ret (status_code r =? HTTP_STATUS_OK))
    (fun e =>
       logmsg WARNING ("[WARN] Could not get session cookie: " +:+ message e) ;;;
       ret false).

Definition _get_month_folder (date : date) : M NSEBhavcopyDownloader (list string) :=
  self <- get_self ;;
  let month_folder := output_dir self ++ [strftime_Ym date] in
  mkdir month_folder ;;;
  ret month_folder.

Definition _get_csv_shape (csv_path : list string) : M NSEBhavcopyDownloader (Z * Z) :=
  try_except
    (c <- read_file csv_path ;;
     match csv_rows c with
     | Ok [] => ret (0, 0)
     | Ok (header :: rows) =>
         ret (Z.of_nat (List.length rows), Z.of_nat (List.length header))
     | Raise e => raise e
     end)
    (fun _ => ret (0, 0)).

(** The loop over the payload: the URL made of the first [file] that
    ends in [.zip]; an item that cannot be asked for its [file], or a
    [file] that is no text, raises. *)
Fixpoint find_zip (data : list json) : outcome (option string) :=
  match data with
  | [] => Ok None
  | item :: rest =>
      match py_contains "file" item with
      | Raise e => Raise e
      | Ok false => find_zip rest
      | Ok true =>
          match py_getitem "file" item with
          | Raise e => Raise e
          | Ok file_url =>
              match py_endswith ".zip" file_url with
              | Raise e => Raise e
              | Ok true => Ok (Some (HOME_URL +:+ text_of file_url))
              | Ok false => find_zip rest
              end
          end
      end
  end.

(** The old form of the answer: a JSON payload that points at the zip
    file.  [None] stands for the [return False] of the branches that
    give up; a [ValueError] is caught here (that of a URL that is
    refused among them), other exceptions go on. *)
Definition zip_from_json (date_str : string) (r : response)
  : M NSEBhavcopyDownloader (option bytes) :=
  try_except
    (match json_decode (content r) with
     | None => raise (mkexn ValueError "Expecting value: line 1 column 1 (char 0)")
     | Some data =>
         empty <- (if negb (truthy data) then ret true
                   else match py_len data with
                        | Ok n => ret (n =? 0)
                        | Raise e => raise e
                        end) ;;
         if empty then
           logmsg LOG_ERROR "[ERROR] No data available" ;;;
           add_failed date_str "No data in response" ;;;
           ret None
         else
           found <- match py_iter data with
                    | Ok items =>
                        match find_zip items with
                        | Ok found => ret found
                        | Raise e => raise e
                        end
                    | Raise e => raise e
                    end ;;
           match found with
           | None =>
               logmsg LOG_ERROR "[ERROR] No zip file found" ;;;
               add_failed date_str "No zip file in response" ;;;
               ret None
           | Some download_url =>
               zip_response <- session_get download_url ;;
               if negb (status_code zip_response =? HTTP_STATUS_OK) then
                 logmsg LOG_ERROR ("[ERROR] Zip download failed HTTP "
                                   +:+ pretty (status_code zip_response)) ;;;
                 add_failed date_str
                   ("Zip download HTTP " +:+ pretty (status_code zip_response)) ;;;
                 ret None
               else ret (Some (content zip_response))
           end
     end)
    (fun e =>
       match kind e with
       | ValueError | InvalidURL =>
           logmsg LOG_ERROR "[ERROR] Invalid response format" ;;;
           add_failed date_str "Invalid response format (not JSON or ZIP)" ;;;
           ret None
       | _ => raise e
       end).

(** [with zipfile.ZipFile(zip_path) as z: z.extractall(folder)] *)
Definition extractall (zip_path folder : list string) : M NSEBhavcopyDownloader unit :=
  c <- read_file zip_path ;;
  match zip_decode c with
  | None => raise (mkexn BadZipFile "File is not a zip file")
  | Some members =>
      Convert.for_each members (fun '(name, data) => write_file (folder ++ [name]) data)
  end.

Definition zip_path_of (month_folder : list string) (date : date) : list string :=
  month_folder ++ ["bhavcopy_" +:+ strftime_Ymd date +:+ ".zip"].

(** The refresh of the session cookie before a download. *)
Definition refresh_cookie : M NSEBhavcopyDownloader unit :=
  now <- time ;;
  self <- get_self ;;
  if COOKIE_REFRESH_INTERVAL <? now - _last_cookie_time self then
    _get_cookie ;;;
    now <- time ;;
    self <- get_self ;;
    set_self (set_cookie_time now self) ;;;
    sleep 1
  else ret tt.

(** The body of the [try] of [download_and_extract]. *)
Definition download_and_extract_body (date : date) (date_str : string)
  : M NSEBhavcopyDownloader bool :=
  month_folder <- _get_month_folder date ;;
  let expected_csv := month_folder ++ [expected_name date] in
  there <- path_exists expected_csv ;;
  if there then
    logmsg INFO "[SKIP] Already exists, skipping" ;;;
    add_skipped date_str ;;;
    ret true
  else
    refresh_cookie ;;;
    let url := _build_url date in
    r <- session_get url ;;
    if status_code r =? HTTP_STATUS_NOT_FOUND then
      logmsg LOG_ERROR "[ERROR] No data (404)" ;;;
      add_failed date_str "No data available (404)" ;;;
      ret false
    else if negb (status_code r =? HTTP_STATUS_OK) then
      logmsg LOG_ERROR ("[ERROR] HTTP " +:+ pretty (status_code r)) ;;;
      add_failed date_str ("HTTP " +:+ pretty (status_code r)) ;;;
      ret false
    else
      zip_content <-
        (if contains_sub "application/zip" (content_type r)
            || bool_decide (take 2 (content r) = PK)
         then ret (Some (content r))
         else zip_from_json date_str r) ;;
      match zip_content with
      | None => ret false
      | Some zip_content =>
          let zip_path := zip_path_of month_folder date in
          write_file zip_path zip_content ;;;
          extractall zip_path month_folder ;;;
          unlink zip_path ;;;
          logmsg INFO "[OK]" ;;;
          ret true
      end.

(** [download_and_extract(date)].  A [BadZipFile] can only come from
    the extraction, after [zip_path] was set, so its handler finds the
    path of the zip file. *)
Definition download_and_extract (date : date) : M NSEBhavcopyDownloader bool :=
  let date_str := strftime_d_b_Y date in
  logmsg INFO ("[DOWNLOAD] Processing " +:+ date_str +:+ "...") ;;;
  try_except
    (download_and_extract_body date date_str)
    (fun e =>
       match kind e with
       | RequestException | InvalidURL =>
           logmsg LOG_ERROR ("[ERROR] Network error: " +:+ message e) ;;;
           add_failed date_str ("Network error: " +:+ message e) ;;;
           ret false
       | BadZipFile =>
           logmsg LOG_ERROR ("[ERROR] Bad zip file: " +:+ message e) ;;;
           add_failed date_str "Invalid zip file" ;;;
           self <- get_self ;;
           let zip_path := zip_path_of (output_dir self ++ [strftime_Ym date]) date in
           try_except
             (there <- path_exists zip_path ;;
              if there then unlink zip_path else ret tt)
             (fun _ => ret tt) ;;;
           ret false
       | _ =>
           logmsg LOG_ERROR ("[ERROR] Error: " +:+ message e) ;;;
           add_failed date_str (message e) ;;;
           ret false
       end).

(** [next(r for (d, r) in failed if d == date_str)] *)
Fixpoint failed_reason (failed : list (string * string)) (date_str : string)
  : option string :=
  match failed with
  | [] => None
  | (d, r) :: rest => if String.eqb d date_str then Some r else failed_reason rest date_str
  end.

(** [current_date += timedelta(days=1)] *)
Definition increment (current_date : date) : M NSEBhavcopyDownloader date :=
  match next_day current_date with
  | Some d => ret d
  | None => raise (mkexn OverflowError "date value out of range")
  end.

(** The check of the directory of existing files. *)
Definition in_existing_dir (current_date : date) : M NSEBhavcopyDownloader bool :=
  self <- get_self ;;
  match existing_dir self with
  | Some dir =>
      path_exists (dir ++ [strftime_Ym current_date; expected_name current_date])
  | None => ret false
  end.

(** What the loop records for a date that was handed to
    [download_and_extract]: status, reason, path, size, shape and the
    new count of successes. *)
Definition outcome_of_download (current_date : date) (date_str : string)
    (ok : bool) (success_count : Z)
  : M NSEBhavcopyDownloader
      (string * string * option (list string) * Z * (Z * Z) * Z) :=
  self <- get_self ;;
  if ok then
    if bool_decide (date_str ∈ skipped_dates self) then
      ret ("skipped_existing", "File already exists", None, 0, (0, 0), success_count)
    else
      match failed_reason (failed_dates self) date_str with
      | Some reason => ret ("failed", reason, None, 0, (0, 0), success_count)
      | None =>
          month_folder <- _get_month_folder current_date ;;
          let expected_csv := month_folder ++ [expected_name current_date] in
          file_size <- stat_size expected_csv ;;
          file_shape <- _get_csv_shape expected_csv ;;
          ret ("success", "", Some expected_csv, file_size, file_shape,
               success_count + 1)
      end
  else
    ret ("failed",
         match failed_reason (failed_dates self) date_str with
         | Some reason => reason
         | None => "Unknown error"
         end,
         None, 0, (0, 0), success_count).

(** The body of the loop of [download_range]: it gives the next date
    and the count of successes. *)
Definition download_range_step (current_date : date) (success_count : Z)
  : M NSEBhavcopyDownloader (date * Z) :=
  let date_str := strftime_d_b_Y current_date in
  if WEEKEND_START <=? weekday current_date then
    logmsg INFO ("[SKIP] Skipping " +:+ date_str +:+ " (Weekend)") ;;;
    add_status date_str "skipped_weekend" "Market closed on weekends" None None None ;;;
    next <- increment current_date ;;
    ret (next, success_count)
  else
    existing <- in_existing_dir current_date ;;
    if existing then
      logmsg INFO ("[SKIP] " +:+ date_str +:+ " already exists in existing directory") ;;;
      add_status date_str "skipped_existing"
                 "File already exists in existing directory" None None None ;;;
      next <- increment current_date ;;
      ret (next, success_count)
    else
      ok <- download_and_extract current_date ;;
      result <- outcome_of_download current_date date_str ok success_count ;;
      let '(status, reason, file_path, file_size, file_shape, success_count) :=
        result in
      add_status date_str status reason file_path (Some file_size) (Some file_shape) ;;;
      next <- increment current_date ;;
      (if String.eqb status "success" || String.eqb status "failed"
       then sleep 2 else ret tt) ;;;
      ret (next, success_count).

(** [while current_date <= end_date: ...]; [None] when the fuel runs
    out before the loop ends. *)
Fixpoint download_range_loop (fuel : nat) (current_date end_date : date)
    (success_count : Z) : M NSEBhavcopyDownloader (option Z) :=
  if date_leb current_date end_date then
    match fuel with
    | O => ret None
    | S fuel' =>
        round <- download_range_step current_date success_count ;;
        download_range_loop fuel' round.1 end_date round.2
    end
  else ret (Some success_count).

(** [self.status_logger.write_csv()] *)
Definition status_csv (now : Z) : list string :=
  BASE_LOG_DIR ++ ["download_status-" +:+ now_stamp now +:+ ".csv"].

Definition write_csv : M NSEBhavcopyDownloader unit :=
  now <- time ;;
  self <- get_self ;;
  write_file (status_csv now)
    (encode (csv_text status_fieldnames (map entry_fields (statuses self)))) ;;;
  logmsg INFO ("[LOG] Download status logged to: " +:+ path_str (status_csv now)).

Definition failed_log (now : Z) : list string :=
  BASE_LOG_DIR ++ ["failed_downloads-" +:+ now_stamp now +:+ ".json"].

Definition write_failed_json (failed : list (string * string))
  : M NSEBhavcopyDownloader unit :=
  now <- time ;;
  write_file (failed_log now) (encode (json_dump failed)) ;;;
  logmsg INFO (String LF ("[LOG] Failed downloads logged to: "
                          +:+ path_str (failed_log now))).

Definition count_status (p : string -> bool) (l : list status_entry) : Z :=
  Z.of_nat (List.length (filter (fun e => p (entry_status e) = true) l)).

(** The days from [start_date] to [end_date], both included: the number
    of rounds the loop can make. *)
Definition days_between (start_date end_date : date) : nat :=
  Z.to_nat (toordinal end_date - toordinal start_date + 1).

Definition download_range (start_date end_date : date)
  : M NSEBhavcopyDownloader (option unit) :=
  logmsg INFO "[START] Starting NSE Bhavcopy Download" ;;;
  logmsg INFO ("[DATE] Date Range: " +:+ strftime_d_b_Y start_date +:+ " to "
               +:+ strftime_d_b_Y end_date) ;;;
  self <- get_self ;;
  logmsg INFO ("[DIR] Output Directory: " +:+ path_str (output_dir self)) ;;;
  logmsg INFO "[COOKIE] Getting session cookie..." ;;;
  got <- _get_cookie ;;
  (if got then logmsg INFO "[OK]" else logmsg WARNING "[WARN] (Continuing anyway)") ;;;
  done <- download_range_loop (days_between start_date end_date)
            start_date end_date 0 ;;
  match done with
  | None => ret None
  | Some success_count =>
      write_csv ;;;
      self <- get_self ;;
      let rule := "============================================================" in
      logmsg INFO (String LF rule) ;;;
      logmsg INFO "[SUMMARY] Download Summary" ;;;
      logmsg INFO rule ;;;
      logmsg INFO ("[OK] Successful: " +:+ pretty success_count) ;;;
      logmsg INFO ("[SKIP] Skipped (existing or weekend): "
                   +:+ pretty (count_status (String.prefix "skipped") (statuses self))) ;;;
      logmsg INFO ("[ERROR] Failed: "
                   +:+ pretty (count_status (String.eqb "failed") (statuses self))) ;;;
      match failed_dates self with
      | [] => ret (Some tt)
      | failed =>
          logmsg WARNING (String LF "[WARN] Failed Downloads:") ;;;
          Convert.for_each failed
            (fun '(d, r) => logmsg WARNING ("  - " +:+ d +:+ ": " +:+ r)) ;;;
          write_failed_json failed ;;;
          ret (Some tt)
      end
  end.

End Pipeline.

(** ** What the loop does with a date, for the statements below *)

(** The entry of the ledger for a Saturday or a Sunday. *)
Definition weekend_entry (d : date) : status_entry :=
  mkEntry (strftime_d_b_Y d) "skipped_weekend" "Market closed on weekends" "" 0 "".

Definition month_folder_of (s : st NSEBhavcopyDownloader) (d : date) : list string :=
  output_dir (self s) ++ [strftime_Ym d].

(** A path that [exists()] stops at: a file or a directory is there, or
    the path cannot be looked at and [exists()] raises. *)
Definition stops_at (f : gmap (list string) node) (p : list string) : Prop :=
  fs_exists f p = true ∨ is_Some (fs_denied f p).

(** The dates the loop passes over without a request: a Saturday or a
    Sunday; a date whose file in the directory of existing files is
    there, or cannot be looked at; a date whose month folder cannot be
    made; and a date whose file in the month folder of the output
    directory is there, or cannot be looked at. *)
Definition no_fetch_condition (d : date) (s : st NSEBhavcopyDownloader) : Prop :=
  5 <= weekday d
  ∨ (exists dir, existing_dir (self s) = Some dir
                 ∧ stops_at (fs (world s)) (dir ++ [strftime_Ym d; expected_name d]))
  ∨ (exists e, fs_mkdir (fs (world s)) (month_folder_of s d) = Raise e)
  ∨ stops_at (fs (world s)) (month_folder_of s d ++ [expected_name d]).

End Download.

(* ===================================================================== *)
(** * Sample runs                                                          *)
(* ===================================================================== *)

(** Small worlds and remote sides on which the pipelines are run in the
    examples and counterexamples below. *)
Module Scenario.

Import Download.

(** The output directory and the directory of the logs are there. *)
Definition files0 : gmap (list string) node :=
  <[["data"] := Dir]> (<[["logs"] := Dir]> ∅).

Definition world0 : World := mkWorld files0 [] [] 1755216000.

Definition downloader0 : NSEBhavcopyDownloader :=
  mkDownloader ["data"] (Some ["existing"]) [] [] [] 0.

Definition start0 : st NSEBhavcopyDownloader := mkst world0 downloader0.

(** A remote side that has no data: every request is answered 404. *)
Definition server_404 : string -> http_result :=
  fun _ => Answer (mkResponse 404 "" []).

(** A remote side that answers with a zip archive, whose one member
    does not have the name the downloader expects. *)
Definition archive : bytes := PK ++ [Byte.x03; Byte.x04].

Definition server_zip : string -> http_result :=
  fun _ => Answer (mkResponse 200 "application/zip" archive).

Definition unzip : bytes -> option (list (string * bytes)) :=
  fun c => if bool_decide (c = archive)
           then Some [("bhavcopy_full.csv", encode "SYMBOL,SERIES")]
           else None.

Definition no_json : bytes -> option json := fun _ => None.
Definition no_rows : bytes -> outcome (list (list string)) := fun _ => Ok [].
Definition json_text : list (string * string) -> string := fun _ => "[]".
Definition stamp : Z -> string := fun _ => "20250815_000000".

(** The status file of this second is there already. *)
Definition kept : bytes := encode "date,status".

Definition files1 : gmap (list string) node :=
  <[status_csv stamp 1755216000 := File kept]> files0.

Definition start1 : st NSEBhavcopyDownloader :=
  mkst (mkWorld files1 [] [] 1755216000)
       (mkDownloader ["data"] None [] [] [weekend_entry (mkdate 2025 8 16)] 0).

(** The file of 15 August 2025 cannot be looked at: in the directory
    of existing files, and in the month folder of the output. *)
Definition PERMISSION_DENIED : string := "[Errno 13] Permission denied".

Definition existing_csv : list string :=
  ["existing"; "202508"; "sec_bhavdata_full_15082025.csv"].

Definition output_csv : list string :=
  ["data"; "202508"; "sec_bhavdata_full_15082025.csv"].

Definition start_denied (p : list string) : st NSEBhavcopyDownloader :=
  mkst (mkWorld (<[p := Unreachable PERMISSION_DENIED]> files0) [] [] 1755216000)
       downloader0.

(** ** The conversion of one file *)

Definition input0 : list string :=
  ["raw"; "201908"; "sec_bhavdata_full_23082019.csv"].

Definition csv0 : bytes := encode "SYMBOL,SERIES".

Definition raw_files : gmap (list string) node :=
  <[input0 := File csv0]>
    (<[["raw"; "201908"] := Dir]> (<[["raw"] := Dir]> (<[["logs"] := Dir]> ∅))).

Definition convert_start : st Convert.ProcessingTracker :=
  mkst (mkWorld raw_files [] [] 0) (Convert.new_tracker ["raw"] ["out"]).

Definition copied0 : list string :=
  ["out"; "raw"; "cm"; "year=2019"; "month=08"; "sec_bhavdata_full_23082019.csv"].

Definition curated0 : list string :=
  ["out"; "curated"; "cm"; "year=2019"; "month=08"; "day=23.parquet"].

Definition table0 : Convert.DataFrame := Convert.mkDataFrame ["SYMBOL"; "SERIES"] [].

(** A reader that accepts the file, and one that finds no columns. *)
Definition parse_ok : bytes -> outcome Convert.DataFrame := fun _ => Ok table0.

Definition no_columns : exn := mkexn ParserError "No columns to parse from file".

Definition parse_empty : bytes -> outcome Convert.DataFrame :=
  fun _ => Raise no_columns.

(** A writer that writes the file, and one that runs out of space
    after the first bytes. *)
Definition parquet0 : bytes := encode "PAR1".

Definition encode_ok : Convert.DataFrame -> Convert.write_result :=
  fun _ => Convert.Written parquet0.

Definition disk_full : exn := mkexn OSError "[Errno 28] No space left on device".

Definition encode_disk_full : Convert.DataFrame -> Convert.write_result :=
  fun _ => Convert.WriteFailed disk_full (Some (encode "PA")).

(** The input set: the one file, and next to it a file whose name has
    no date. *)
Definition input1 : list string := ["raw"; "201908"; "sec_bhavdata_full_latest.csv"].

Definition rglob0 : gmap (list string) node -> list string -> string -> list (list string) :=
  fun _ _ _ => [input0].

Definition rglob1 : gmap (list string) node -> list string -> string -> list (list string) :=
  fun _ _ _ => [input0; input1].

Definition raw_files1 : gmap (list string) node :=
  <[input1 := File csv0]> raw_files.

Definition convert_start1 : st Convert.ProcessingTracker :=
  mkst (mkWorld raw_files1 [] [] 0) (Convert.new_tracker ["raw"] ["out"]).

(** ** Names of files

    A name whose date ends in the fullwidth digits [U+FF11] and
    [U+FF19], here in their UTF-8 bytes, and one whose day is padded
    with a space. *)
Definition FULLWIDTH_ONE : string :=
  String (ascii_of_nat 239) (String (ascii_of_nat 188) (String (ascii_of_nat 145) "")).

Definition FULLWIDTH_NINE : string :=
  String (ascii_of_nat 239) (String (ascii_of_nat 188) (String (ascii_of_nat 153) "")).

Definition fullwidth_name : list string :=
  ["raw"; "201908";
   "sec_bhavdata_full_230820" +:+ FULLWIDTH_ONE +:+ FULLWIDTH_NINE +:+ ".csv"].

Definition padded_name : list string :=
  ["data"; "201901"; "sec_bhavdata_full_ 1012019.csv"].

End Scenario.

(* ===================================================================== *)
(** * Running computations in proofs                                       *)
(* ===================================================================== *)

(** [run_in H] unfolds the world operations in [H], so that a
    computation applied to a state becomes the matches on what the
    world answers; [split_run H] then takes the cases of these matches,
    the innermost first, and computes the tests that are closed. *)
Ltac run_in H :=
  cbv beta iota zeta delta
    [stat_size fs_query fs_update path_exists os_path_exists relative_to logmsg read_file
     write_file mkdir mkdir_parents unlink copy2 time sleep
     bind ret raise try_except get_world set_world get_self set_self
     world self fst snd] in H.

Ltac case_in H x :=
  first [ match x with context [match ?y with _ => _ end] => case_in H y end
        | lazymatch type of x with
          | bool =>
              let v := eval compute in x in
              lazymatch v with
              | true => change x with true in H
              | false => change x with false in H
              end
          end
        | let E := fresh "E" in destruct x eqn:E ].

Ltac split_run H :=
  repeat (cbv beta iota in H;
          match type of H with
          | context [match ?x with _ => _ end] => case_in H x
          end).

(** Case analysis on an integer known to lie in a small range. *)
Ltac enum_Z n :=
  destruct n as [|n|n]; try lia;
  do 6 (try (destruct n as [n|n|]; try lia)).

(* ===================================================================== *)
(** * Properties of the Holiday Oracle                                     *)
(* ===================================================================== *)

Section HolidayFacts.

Import Holidays.

Lemma recurring_pair_decide (d : date) :
  bool_decide ((month d, day d) ∈ RECURRING_HOLIDAYS) = true <-> recurring_pair d.
Proof.
  rewrite bool_decide_eq_true. unfold RECURRING_HOLIDAYS, recurring_pair.
  rewrite !elem_of_cons, elem_of_nil.
  split.
  - intros [H|[H|[H|[H|[H|[]]]]]]; inversion H; tauto.
  - intros [[-> ->]|[[-> ->]|[[-> ->]|[[-> ->]|[-> ->]]]]]; tauto.
Qed.

(** The two modes are the two managers. *)
Lemma authoritative_manager_iff (self : HolidayManager) (s : gset date) :
  authoritative self s <-> self = authoritative_manager s.
Proof.
  destruct self as [l u]. unfold authoritative, authoritative_manager. simpl.
  split; [intros [-> ->]; reflexivity | intros [= -> ->]; auto].
Qed.

Lemma recurring_manager_iff (self : HolidayManager) :
  recurring_mode self <-> self = recurring_manager.
Proof.
  destruct self as [l u]. unfold recurring_mode, recurring_manager. simpl.
  split; [intros [-> ->]; reflexivity | intros [= -> ->]; auto].
Qed.

(** A CSV file that can be read puts the manager in authoritative mode,
    whatever it was before; a missing or unreadable one in recurring
    mode. *)
Lemma load_holidays_authoritative (lines : list string) (self : HolidayManager) :
  authoritative (load_holidays (FileLines lines) self).1 (read_lines lines ∅).
Proof. split; reflexivity. Qed.

Lemma load_holidays_recurring (self : HolidayManager) :
  recurring_mode (load_holidays FileMissing self).1
  ∧ recurring_mode (load_holidays FileUnreadable self).1.
Proof. repeat split. Qed.

(** Neither query changes a manager that has loaded its holidays. *)
Lemma is_public_holiday_loaded (f : holiday_file) (self : HolidayManager)
    (hs : holidays) (x : date_like) :
  _loaded_holidays self = Some hs ->
  (is_public_holiday f self x).1 = self.
Proof.
  intros H. unfold is_public_holiday, get_holidays. rewrite H.
  destruct (_using_recurring self); [reflexivity|].
  destruct (date_in _ _); reflexivity.
Qed.

(** C5. In authoritative mode [is_public_holiday] answers [True] exactly
    for the dates of the loaded set and the dates on one of the five
    recurring (month, day) pairs; in recurring mode exactly for the
    dates on one of those pairs, whatever the year. *)
Theorem is_public_holiday_by_mode (f : holiday_file) (x : date_like) :
  (forall s : gset date,
      (is_public_holiday f (authoritative_manager s) x).2 = true
      <-> date_part x ∈ s ∨ recurring_pair (date_part x))
  ∧ ((is_public_holiday f recurring_manager x).2 = true
     <-> recurring_pair (date_part x)).
Proof.
  split.
  - intros s. unfold is_public_holiday, authoritative_manager. simpl.
    destruct (bool_decide (date_part x ∈ s)) eqn:E; simpl.
    + apply bool_decide_eq_true in E. tauto.
    + apply bool_decide_eq_false in E. rewrite recurring_pair_decide. tauto.
  - unfold is_public_holiday, recurring_manager. simpl.
    apply recurring_pair_decide.
Qed.

(** C10. The [in] operator of a manager in authoritative mode tests the
    loaded set only, so it disagrees with [is_public_holiday] on a
    recurring holiday that the file does not list: such a date exists
    for a manager loaded from a CSV file. *)
Theorem contains_disagrees_with_is_public_holiday (f : holiday_file) :
  (forall (s : gset date) (x : date_like),
      (contains f (authoritative_manager s) (ItemDate x)).2 = true
      <-> exists d, x = ADate d ∧ d ∈ s)
  ∧ (exists (lines : list string) (d : date),
        let self := (load_holidays (FileLines lines) new_manager).1 in
        authoritative self (read_lines lines ∅)
        ∧ valid_date d
        ∧ (is_public_holiday f self (ADate d)).2 = true
        ∧ (contains f self (ItemDate (ADate d))).2 = false).
Proof.
  split.
  - intros s x. unfold contains, authoritative_manager. simpl.
    destruct x as [d|d h mi se]; simpl.
    + rewrite bool_decide_eq_true. split; [eauto|]. intros (d' & [= ->] & H). exact H.
    + split; [discriminate|]. intros (d' & [=] & _).
  - exists ["2025-03-14"; "2025-08-27"], (mkdate 2025 1 26).
    split; [apply load_holidays_authoritative|].
    split; [reflexivity|].
    split; vm_compute; reflexivity.
Qed.

End HolidayFacts.

(* ===================================================================== *)
(** * Properties of texts and of the parsing of dates                      *)
(* ===================================================================== *)

Section TextFacts.

Lemma is_cont_ascii (x : Z) : x < 128 -> is_cont x = false.
Proof. unfold is_cont. intros H. apply andb_false_intro1. apply Z.leb_gt. lia. Qed.

Lemma two_bytes_ascii (a x : Z) : x < 128 -> two_bytes a x = false.
Proof. intros H. unfold two_bytes. rewrite (is_cont_ascii x H). apply andb_false_r. Qed.

Lemma three_bytes_ascii_2 (a x c : Z) : x < 128 -> three_bytes a x c = false.
Proof.
  intros H. unfold three_bytes. rewrite (is_cont_ascii x H).
  rewrite andb_false_r. reflexivity.
Qed.

Lemma three_bytes_ascii_3 (a b x : Z) : x < 128 -> three_bytes a b x = false.
Proof.
  intros H. unfold three_bytes. rewrite (is_cont_ascii x H).
  rewrite andb_false_r. reflexivity.
Qed.

Lemma four_bytes_ascii_2 (a x c e : Z) : x < 128 -> four_bytes a x c e = false.
Proof.
  intros H. unfold four_bytes. rewrite (is_cont_ascii x H).
  rewrite andb_false_r. reflexivity.
Qed.

Lemma four_bytes_ascii_3 (a b x e : Z) : x < 128 -> four_bytes a b x e = false.
Proof.
  intros H. unfold four_bytes. rewrite (is_cont_ascii x H).
  rewrite andb_false_r. reflexivity.
Qed.

Lemma four_bytes_ascii_4 (a b c x : Z) : x < 128 -> four_bytes a b c x = false.
Proof.
  intros H. unfold four_bytes. rewrite (is_cont_ascii x H).
  rewrite andb_false_r. reflexivity.
Qed.

Lemma two_bytes_lead (a b : Z) : a < 128 -> two_bytes a b = false.
Proof.
  intros H. unfold two_bytes. replace (194 <=? a) with false; [reflexivity|].
  symmetry. apply Z.leb_gt. lia.
Qed.

Lemma three_bytes_lead (a b c : Z) : a < 128 -> three_bytes a b c = false.
Proof.
  intros H. unfold three_bytes. replace (224 <=? a) with false; [reflexivity|].
  symmetry. apply Z.leb_gt. lia.
Qed.

Lemma four_bytes_lead (a b c e : Z) : a < 128 -> four_bytes a b c e = false.
Proof.
  intros H. unfold four_bytes. replace (240 <=? a) with false; [reflexivity|].
  symmetry. apply Z.leb_gt. lia.
Qed.

(** The first character of a text that begins with an ASCII byte. *)
Lemma split_chars_ascii_head (a : ascii) (r : string) :
  byte_value a < 128 -> split_chars (String a r) = String a "" :: split_chars r.
Proof.
  intros H. cbn [split_chars].
  destruct r as [|b [|c [|e r]]]; [reflexivity|..];
    rewrite ?(two_bytes_lead _ _ H), ?(three_bytes_lead _ _ _ H),
      ?(four_bytes_lead _ _ _ _ H); reflexivity.
Qed.

Lemma split_chars_ascii (t : string) :
  ascii_text t ->
  split_chars t = map (fun c => String c "") (list_ascii_of_string t).
Proof.
  induction t as [|a t IH]; intros H; [reflexivity|].
  apply Forall_cons in H as [Ha Ht].
  rewrite (split_chars_ascii_head _ _ Ha). simpl. by rewrite IH.
Qed.

Lemma split_chars_unfold (a : ascii) (r : string) :
  split_chars (String a r)
  = match r with
    | String b r2 =>
        if two_bytes (byte_value a) (byte_value b)
        then String a (String b "") :: split_chars r2
        else
          match r2 with
          | String c r3 =>
              if three_bytes (byte_value a) (byte_value b) (byte_value c)
              then String a (String b (String c "")) :: split_chars r3
              else
                match r3 with
                | String e r4 =>
                    if four_bytes (byte_value a) (byte_value b) (byte_value c)
                                  (byte_value e)
                    then String a (String b (String c (String e ""))) :: split_chars r4
                    else String a "" :: split_chars r
                | "" => String a "" :: split_chars r
                end
          | "" => String a "" :: split_chars r
          end
    | "" => [String a ""]
    end.
Proof. destruct r; reflexivity. Qed.

Lemma append_empty (s : string) : s +:+ "" = s.
Proof.
  induction s as [|a s IH]; [reflexivity|].
  change (String a (s +:+ "") = String a s). by rewrite IH.
Qed.

(** The characters of a text that ends in ASCII characters: those of
    what goes before, then the ASCII characters. *)
Lemma split_chars_app_ascii (t : string) (n : nat) :
  ascii_text t ->
  forall pre, (String.length pre <= n)%nat ->
  split_chars (pre +:+ t) = split_chars pre ++ split_chars t.
Proof.
  intros Ht. destruct t as [|x t].
  { intros pre _. rewrite append_empty. by rewrite app_nil_r. }
  apply Forall_cons in Ht as [Hx _].
  induction n as [|n IH]; intros pre Hn.
  { destruct pre; [reflexivity | simpl in Hn; lia]. }
  destruct pre as [|a [|b [|c [|e r4]]]]; [reflexivity|..].
  - change (String a "" +:+ String x t) with (String a (String x t)).
    rewrite (split_chars_unfold a (String x t)), (split_chars_unfold a "").
    cbv beta iota. rewrite (two_bytes_ascii _ _ Hx).
    destruct t as [|c [|e r]];
      rewrite ?(three_bytes_ascii_2 _ _ _ Hx), ?(four_bytes_ascii_2 _ _ _ _ Hx);
      reflexivity.
  - assert (E : split_chars (String b (String x t))
                = split_chars (String b "") ++ split_chars (String x t))
      by (apply (IH (String b "")); simpl in *; lia).
    change (String a (String b "") +:+ String x t)
      with (String a (String b (String x t))).
    rewrite (split_chars_unfold a (String b (String x t))),
      (split_chars_unfold a (String b "")).
    cbv beta iota.
    destruct (two_bytes (byte_value a) (byte_value b)); [reflexivity|].
    rewrite (three_bytes_ascii_3 _ _ _ Hx).
    destruct t as [|e r]; rewrite ?(four_bytes_ascii_3 _ _ _ _ Hx), E; reflexivity.
  - assert (E1 : split_chars (String c (String x t))
                 = split_chars (String c "") ++ split_chars (String x t))
      by (apply (IH (String c "")); simpl in *; lia).
    assert (E2 : split_chars (String b (String c (String x t)))
                 = split_chars (String b (String c "")) ++ split_chars (String x t))
      by (apply (IH (String b (String c ""))); simpl in *; lia).
    change (String a (String b (String c "")) +:+ String x t)
      with (String a (String b (String c (String x t)))).
    rewrite (split_chars_unfold a (String b (String c (String x t)))),
      (split_chars_unfold a (String b (String c ""))).
    cbv beta iota.
    destruct (two_bytes (byte_value a) (byte_value b)); [by rewrite E1|].
    destruct (three_bytes (byte_value a) (byte_value b) (byte_value c));
      [reflexivity|].
    rewrite (four_bytes_ascii_4 _ _ _ _ Hx). by rewrite E2.
  - assert (E1 : split_chars (String c (String e r4) +:+ String x t)
                 = split_chars (String c (String e r4)) ++ split_chars (String x t))
      by (apply IH; simpl in *; lia).
    assert (E2 : split_chars (String e r4 +:+ String x t)
                 = split_chars (String e r4) ++ split_chars (String x t))
      by (apply IH; simpl in *; lia).
    assert (E3 : split_chars (r4 +:+ String x t)
                 = split_chars r4 ++ split_chars (String x t))
      by (apply IH; simpl in *; lia).
    assert (E4 : split_chars (String b (String c (String e r4)) +:+ String x t)
                 = split_chars (String b (String c (String e r4)))
                   ++ split_chars (String x t))
      by (apply IH; simpl in *; lia).
    change (String a (String b (String c (String e r4))) +:+ String x t)
      with (String a (String b (String c (String e (r4 +:+ String x t))))).
    change (String c (String e r4) +:+ String x t)
      with (String c (String e (r4 +:+ String x t))) in E1.
    change (String e r4 +:+ String x t) with (String e (r4 +:+ String x t)) in E2.
    change (String b (String c (String e r4)) +:+ String x t)
      with (String b (String c (String e (r4 +:+ String x t)))) in E4.
    rewrite (split_chars_unfold a (String b (String c (String e (r4 +:+ String x t))))),
      (split_chars_unfold a (String b (String c (String e r4)))).
    cbv beta iota.
    destruct (two_bytes (byte_value a) (byte_value b)); [by rewrite E1|].
    destruct (three_bytes (byte_value a) (byte_value b) (byte_value c));
      [by rewrite E2|].
    destruct (four_bytes (byte_value a) (byte_value b) (byte_value c) (byte_value e));
      [by rewrite E3|].
    by rewrite E4.
Qed.

Lemma chars_app_ascii (pre t : string) :
  ascii_text t -> chars (pre +:+ t) = chars pre ++ chars t.
Proof.
  intros Ht. unfold chars.
  rewrite (split_chars_app_ascii t (String.length pre) Ht pre) by lia.
  apply map_app.
Qed.

Lemma chars_ascii (t : string) :
  ascii_text t -> chars t = map byte_value (list_ascii_of_string t).
Proof.
  intros Ht. unfold chars. rewrite (split_chars_ascii t Ht).
  induction Ht as [|c l Hc Hl IH]; [reflexivity|].
  cbn [map]. rewrite IH. f_equal. unfold code_point.
  replace (byte_value c <? 128) with true; [reflexivity|].
  symmetry. apply Z.ltb_lt. exact Hc.
Qed.

Lemma last_n_app (n : nat) (l t : text) :
  List.length t = n -> last_n n (l ++ t) = t.
Proof.
  intros H. unfold last_n. rewrite length_app, H.
  replace (List.length l + n - n)%nat with (List.length l) by lia.
  apply drop_app_length.
Qed.

End TextFacts.

Section DatetimeFacts.

(** Decides the comparisons of a goal, one after the other, and drops
    the cases the hypotheses exclude. *)
Ltac decide_tests :=
  repeat (cbn [flat_map app andb orb negb]; cbv beta iota;
          match goal with
          | E : decimal_value ?c = _ |- context [decimal_value ?c] => rewrite E
          | |- context [Z.leb ?a ?b] => destruct (Z.leb_spec a b); try lia
          | |- context [Z.eqb ?a ?b] => destruct (Z.eqb_spec a b); try lia
          end);
  cbn [flat_map app andb orb negb]; cbv beta iota.

Ltac split_in H :=
  repeat match type of H with
         | _ ∨ _ => destruct H as [H|H]
         | False => destruct H
         end.

Lemma byte_value_digit_char (k : Z) :
  0 <= k <= 9 -> byte_value (digit_char k) = 48 + k.
Proof. intros H. enum_Z k; reflexivity. Qed.

Lemma decimal_value_ascii (k : Z) : 0 <= k <= 9 -> decimal_value (48 + k) = Some k.
Proof. intros H. enum_Z k; reflexivity. Qed.

Lemma valid_date_bounds (d : date) :
  valid_date d ->
  1 <= year d <= 9999 ∧ 1 <= month d <= 12 ∧ 1 <= day d <= 31.
Proof.
  unfold valid_date, valid_dateb, MINYEAR, MAXYEAR, days_in_month. intros H.
  repeat (apply andb_prop in H as [H ?]).
  repeat case_match; lia.
Qed.

Lemma flat_map_cons {A B : Type} (f : A -> list B) (x : A) (l : list A) :
  flat_map f (x :: l) = f x ++ flat_map f l.
Proof. reflexivity. Qed.

Lemma format_DDMMYYYY_bytes (d : date) :
  format_DDMMYYYY d
  = String (digit_char (day d / 10)) (String (digit_char (day d mod 10))
      (String (digit_char (month d / 10)) (String (digit_char (month d mod 10))
        (pad4 (year d))))).
Proof. reflexivity. Qed.

(** The eight characters of a date written as [DDMMYYYY]. *)
Lemma chars_format_DDMMYYYY (d : date) :
  valid_date d ->
  ascii_text (format_DDMMYYYY d)
  ∧ chars (format_DDMMYYYY d)
    = [48 + day d / 10; 48 + day d mod 10; 48 + month d / 10; 48 + month d mod 10;
       48 + year d / 1000; 48 + year d / 100 mod 10; 48 + year d / 10 mod 10;
       48 + year d mod 10].
Proof.
  intros Hv. destruct (valid_date_bounds d Hv) as (Hy & Hm & Hd).
  assert (A : ascii_text (format_DDMMYYYY d)).
  { unfold ascii_text. rewrite format_DDMMYYYY_bytes. unfold pad4.
    cbn [list_ascii_of_string].
    repeat constructor;
      rewrite byte_value_digit_char; Z.to_euclidean_division_equations; lia. }
  split; [exact A|]. rewrite (chars_ascii _ A).
  rewrite format_DDMMYYYY_bytes. unfold pad4. cbn [list_ascii_of_string map].
  rewrite !byte_value_digit_char by (Z.to_euclidean_division_equations; lia).
  reflexivity.
Qed.

(** ** The ways of a directive *)

Lemma seq_match_In {A B : Type} (p : matcher A) (q : A -> matcher B) t b r :
  In (b, r) (seq_match p q t) ->
  exists a r1, In (a, r1) (p t) ∧ In (b, r) (q a r1).
Proof.
  unfold seq_match. intros H. apply in_flat_map in H as ([a r1] & H1 & H2). eauto.
Qed.

Lemma ret_match_In {A : Type} (a b : A) (t r : text) :
  In (b, r) (ret_match a t) -> b = a ∧ r = t.
Proof. intros [[= <- <-]|[]]. auto. Qed.

Lemma decimal_In (t : text) (v : Z) (r : text) :
  In (v, r) (decimal t) -> exists c, t = c :: r ∧ decimal_value c = Some v.
Proof.
  unfold decimal. destruct t as [|c t]; [intros []|].
  destruct (decimal_value c) as [w|] eqn:E; [|intros []].
  intros [[= <- <-]|[]]. exists c. auto.
Qed.

Lemma match_Y_In (t : text) (v : Z) (r : text) :
  In (v, r) (match_Y t) ->
  exists c5 c6 c7 c8, t = c5 :: c6 :: c7 :: c8 :: r ∧ tail_year c5 c6 c7 c8 = Some v.
Proof.
  unfold match_Y. intros H.
  apply seq_match_In in H as (a & r1 & H1 & H).
  apply seq_match_In in H as (b & r2 & H2 & H).
  apply seq_match_In in H as (c & r3 & H3 & H).
  apply seq_match_In in H as (e & r4 & H4 & H).
  apply ret_match_In in H as [-> ->].
  apply decimal_In in H1 as (c5 & -> & E5), H2 as (c6 & -> & E6),
    H3 as (c7 & -> & E7), H4 as (c8 & -> & E8).
  exists c5, c6, c7, c8. split; [reflexivity|].
  unfold tail_year. by rewrite E5, E6, E7, E8.
Qed.

Lemma match_Y_first (c5 c6 c7 c8 v : Z) (r : text) :
  tail_year c5 c6 c7 c8 = Some v -> match_Y (c5 :: c6 :: c7 :: c8 :: r) = [(v, r)].
Proof.
  unfold tail_year.
  destruct (decimal_value c5) eqn:E5, (decimal_value c6) eqn:E6,
    (decimal_value c7) eqn:E7, (decimal_value c8) eqn:E8; try discriminate.
  intros [= <-]. unfold match_Y, seq_match, decimal, ret_match.
  rewrite E5. cbn [flat_map app]. rewrite E6. cbn [flat_map app].
  rewrite E7. cbn [flat_map app]. rewrite E8. reflexivity.
Qed.

(** The day: two characters that read as a day, or one character. *)
Lemma match_d_In (t : text) (v : Z) (r : text) :
  In (v, r) (match_d t) ->
  (exists c1 c2, t = c1 :: c2 :: r ∧ tail_day c1 c2 = Some v)
  ∨ (exists c, t = c :: r).
Proof.
  destruct t as [|c1 [|c2 t]].
  - intros [].
  - unfold match_d, two_digits, seq_match, ret_match, digit_in, decimal, match_lit, SPACE.
    decide_tests; try (intros []; fail); intros [[= <- <-]|[]]; right; eauto.
  - unfold match_d, two_digits, seq_match, ret_match, digit_in, decimal, match_lit, SPACE.
    destruct (decimal_value c2) as [w|] eqn:Ew; decide_tests;
      cbn [In]; intros Hin; split_in Hin;
      simplify_eq; try (right; eauto; fail);
      left; eexists _, _; (split; [reflexivity|]);
      unfold tail_day, ascii_in, SPACE; rewrite ?Ew; decide_tests;
      f_equal; lia.
Qed.

Lemma match_d_first (c1 c2 v : Z) (r : text) :
  tail_day c1 c2 = Some v -> exists rest, match_d (c1 :: c2 :: r) = (v, r) :: rest.
Proof.
  unfold tail_day, ascii_in, SPACE.
  unfold match_d, two_digits, seq_match, ret_match, digit_in, decimal, match_lit, SPACE.
  destruct (decimal_value c2) as [w|] eqn:Ew; decide_tests; try discriminate;
    intros [= <-]; eexists; (apply (f_equal2 cons); [|reflexivity]);
    f_equal; lia.
Qed.

Lemma match_m_In (t : text) (v : Z) (r : text) :
  In (v, r) (match_m t) ->
  (exists c3 c4, t = c3 :: c4 :: r ∧ tail_month c3 c4 = Some v)
  ∨ (exists c, t = c :: r).
Proof.
  destruct t as [|c3 [|c4 t]].
  - intros [].
  - unfold match_m, two_digits, seq_match, ret_match, digit_in.
    decide_tests; try (intros []; fail); intros [[= <- <-]|[]]; right; eauto.
  - unfold match_m, two_digits, seq_match, ret_match, digit_in.
    decide_tests;
      cbn [In]; intros Hin; split_in Hin;
      simplify_eq; try (right; eauto; fail);
      left; eexists _, _; (split; [reflexivity|]);
      unfold tail_month, ascii_in; decide_tests;
      f_equal; lia.
Qed.

Lemma match_m_first (c3 c4 v : Z) (r : text) :
  tail_month c3 c4 = Some v -> exists rest, match_m (c3 :: c4 :: r) = (v, r) :: rest.
Proof.
  unfold tail_month, ascii_in.
  unfold match_m, two_digits, seq_match, ret_match, digit_in.
  decide_tests; try discriminate;
    intros [= <-]; eexists; (apply (f_equal2 cons); [|reflexivity]);
    f_equal; lia.
Qed.

Lemma build_date_Some (found : list (date * text)) (d : date) :
  build_date found = Some d -> In (d, []) found ∧ valid_date d.
Proof.
  unfold build_date. destruct found as [|[d' [|c r]] rest]; try discriminate.
  destruct (valid_dateb d') eqn:E; [|discriminate].
  intros [= <-]. split; [left; reflexivity | exact E].
Qed.

(** A tail that reads as a date is parsed as that date. *)
Lemma strptime_dmY_of_tail (t : text) (d : date) :
  tail_date t = Some d -> strptime_dmY t = Some d.
Proof.
  unfold tail_date.
  destruct t as [|c1 [|c2 [|c3 [|c4 [|c5 [|c6 [|c7 [|c8 [|c9 t]]]]]]]]];
    try discriminate.
  destruct (tail_day c1 c2) as [dd|] eqn:Ed; [|discriminate].
  destruct (tail_month c3 c4) as [mm|] eqn:Em; [|discriminate].
  destruct (tail_year c5 c6 c7 c8) as [yy|] eqn:Ey; [|discriminate].
  destruct (valid_dateb (mkdate yy mm dd)) eqn:Ev; [|discriminate].
  intros [= <-]. unfold strptime_dmY, seq_match.
  destruct (match_d_first c1 c2 dd [c3; c4; c5; c6; c7; c8] Ed) as [r1 ->].
  rewrite flat_map_cons. cbv beta iota.
  destruct (match_m_first c3 c4 mm [c5; c6; c7; c8] Em) as [r2 ->].
  rewrite flat_map_cons. cbv beta iota.
  rewrite (match_Y_first c5 c6 c7 c8 yy [] Ey).
  cbn [flat_map app ret_match build_date]. by rewrite Ev.
Qed.

(** What [strptime] took from a text of eight characters. *)
Lemma strptime_dmY_eight (t : text) (d : date) :
  List.length t = 8%nat -> strptime_dmY t = Some d -> tail_date t = Some d.
Proof.
  intros Hlen H. unfold strptime_dmY in H.
  apply build_date_Some in H as [H Hv].
  apply seq_match_In in H as (dd & r1 & Hd & H).
  apply seq_match_In in H as (mm & r2 & Hm & H).
  apply seq_match_In in H as (yy & r3 & Hy & H).
  apply ret_match_In in H as [-> <-].
  apply match_Y_In in Hy as (c5 & c6 & c7 & c8 & -> & Ey).
  apply match_m_In in Hm as [(c3 & c4 & -> & Em)|(c & ->)];
    apply match_d_In in Hd as [(c1 & c2 & -> & Ed)|(c' & ->)];
    simpl in Hlen; try discriminate.
  unfold tail_date. rewrite Ed, Em, Ey. by rewrite Hv.
Qed.

(** The parsing of a text of eight characters, in the words of the
    convention. *)
Lemma strptime_dmY_tail (t : text) :
  List.length t = 8%nat -> strptime_dmY t = tail_date t.
Proof.
  intros Hlen.
  destruct (strptime_dmY t) as [d|] eqn:E.
  - symmetry. by apply strptime_dmY_eight.
  - destruct (tail_date t) as [d|] eqn:E'; [|reflexivity].
    apply strptime_dmY_of_tail in E'. congruence.
Qed.

Lemma tail_date_format (d : date) :
  valid_date d -> tail_date (chars (format_DDMMYYYY d)) = Some d.
Proof.
  intros Hv. destruct (valid_date_bounds d Hv) as (Hy & Hm & Hd).
  destruct (chars_format_DDMMYYYY d Hv) as [_ ->].
  destruct d as [y m dd]. cbn [year month day] in *.
  unfold tail_date.
  assert (Ed : tail_day (48 + dd / 10) (48 + dd mod 10) = Some dd)
    by (clear -Hd; enum_Z dd; reflexivity).
  assert (Em : tail_month (48 + m / 10) (48 + m mod 10) = Some m)
    by (clear -Hm; enum_Z m; reflexivity).
  assert (Ey : tail_year (48 + y / 1000) (48 + y / 100 mod 10) (48 + y / 10 mod 10)
                 (48 + y mod 10) = Some y).
  { unfold tail_year.
    rewrite !decimal_value_ascii by (Z.to_euclidean_division_equations; lia).
    f_equal. Z.to_euclidean_division_equations; lia. }
  rewrite Ed, Em, Ey. by rewrite Hv.
Qed.

(** Reading back a date written as [DDMMYYYY] gives the date. *)
Lemma strptime_dmY_format (d : date) :
  valid_date d -> strptime_dmY (chars (format_DDMMYYYY d)) = Some d.
Proof. intros Hv. apply strptime_dmY_of_tail. by apply tail_date_format. Qed.

End DatetimeFacts.

(* ===================================================================== *)
(** * Properties of the Status Ledger of the conversion                    *)
(* ===================================================================== *)

Section TrackerFacts.

Import Convert.

(** A call of [add_record] either raises before it touched anything, or
    appends one record and only writes to the log. *)
Lemma add_record_inv input status output shape copied
    (s s' : st ProcessingTracker) (out : outcome unit) :
  add_record input status output shape copied s = (out, s') ->
  (out = Ok tt
   ∧ exists r w, s' = mkst w (append_record r status (self s))
               ∧ fs w = fs (world s)
               ∧ PROCESSING_STATUS r = Status_value status
               ∧ FILE_NAME r = path_name input
               ∧ (exists n, fs_stat_size (fs (world s)) input = Ok n)
               ∧ is_Some (path_strip_prefix (_input_root_path (self s)) input))
  ∨ (exists e, out = Raise e ∧ s' = s).
Proof.
  intros H.
  unfold add_record, relative_str, _get_file_datetime_from_name in H. run_in H.
  destruct s as [w t].
  split_run H; simplify_eq.
  all: try (right; eexists; split; reflexivity).
  all: left; split; [reflexivity|]; eexists; eexists; split; [reflexivity|]; simpl.
  all: repeat split; eauto.
Qed.

Lemma stats_total_counts a b c : stats_total (counts a b c) = a + b + c.
Proof.
  unfold stats_total, counts.
  rewrite !map_fold_insert_L, map_fold_empty; try (intros; lia); try done.
  all: by simplify_map_eq.
Qed.

Lemma counts_lookup a b c :
  counts a b c !!! SUCCESS = a ∧ counts a b c !!! SKIPPED = b ∧ counts a b c !!! ERROR = c.
Proof. unfold counts. repeat split; by simplify_map_eq. Qed.

Lemma counts_bump a b c (st : Status) :
  exists a' b' c',
    match counts a b c !! st with
    | Some n => <[st := n + 1]> (counts a b c)
    | None => counts a b c
    end = counts a' b' c'
    ∧ a' + b' + c' = a + b + c + 1
    ∧ counts a' b' c' = <[st := counts a b c !!! st + 1]> (counts a b c).
Proof.
  destruct st; unfold counts; rewrite !lookup_total_alt; simplify_map_eq.
  - exists (a + 1), b, c. repeat split; try lia; apply map_eq; intros []; by simplify_map_eq.
  - exists a, (b + 1), c. repeat split; try lia; apply map_eq; intros []; by simplify_map_eq.
  - exists a, b, (c + 1). repeat split; try lia; apply map_eq; intros []; by simplify_map_eq.
Qed.

Lemma new_tracker_inv i o : tracker_inv (new_tracker i o).
Proof. exists 0, 0, 0. split; reflexivity. Qed.

Lemma do_call_step (c : call) (s : st ProcessingTracker) :
  tracker_inv (self s) ->
  tracker_inv (self (do_call c s).2)
  ∧ ((records (self (do_call c s).2) = records (self s)
      ∧ stats (self (do_call c s).2) = stats (self s))
     ∨ (exists r,
          records (self (do_call c s).2) = records (self s) ++ [r]
          ∧ stats (self (do_call c s).2)
            = <[call_status c := stats (self s) !!! call_status c + 1]> (stats (self s)))).
Proof.
  intros (a & b & n & Hs & Hn). unfold do_call.
  destruct (add_record _ _ _ _ _ s) as [out s'] eqn:E.
  apply add_record_inv in E as [(_ & r & w & -> & _)|(e & _ & ->)]; simpl.
  - destruct (counts_bump a b n (call_status c)) as (a' & b' & n' & E1 & E2 & E3).
    unfold append_record; simpl. rewrite Hs. split.
    + exists a', b', n'. split; [exact E1|]. simpl. rewrite length_app. simpl. lia.
    + right. exists r. split; [reflexivity|]. rewrite E1. exact E3.
  - split; [exists a, b, n; auto | left; auto].
Qed.

Lemma run_calls_inv (cs : list call) (s : st ProcessingTracker) :
  tracker_inv (self s) -> tracker_inv (self (run_calls cs s)).
Proof.
  revert s. induction cs as [|c cs IH]; intros s H; simpl; [exact H|].
  apply IH. apply do_call_step. exact H.
Qed.

Lemma do_call_outcome (c : call) (s : st ProcessingTracker) :
  tracker_inv (self s) ->
  match (do_call c s).1 with
  | Ok _ =>
      exists r,
        records (self (do_call c s).2) = records (self s) ++ [r]
        ∧ PROCESSING_STATUS r = Status_value (call_status c)
        ∧ stats (self (do_call c s).2)
          = <[call_status c := stats (self s) !!! call_status c + 1]> (stats (self s))
  | Raise _ => (do_call c s).2 = s
  end.
Proof.
  intros (a & b & n & Hs & Hn). unfold do_call.
  destruct (add_record _ _ _ _ _ s) as [out s'] eqn:E.
  apply add_record_inv in E as [(-> & r & w & -> & _ & Hr & _)|(e & -> & ->)]; simpl;
    [|reflexivity].
  destruct (counts_bump a b n (call_status c)) as (a' & b' & n' & E1 & E2 & E3).
  exists r. split; [reflexivity|]. split; [exact Hr|].
  rewrite Hs, E1. exact E3.
Qed.

(** C4. After any sequence of [add_record] calls on a new tracker the
    three counters sum to the number of records (which is the total
    [print_summary] reports).  One more call that returns appends one
    record, of the status of the call, and adds one to the counter of
    that status and to no other; one more call that raises leaves the
    tracker, and all else, as it was. *)
Theorem counters_sum_to_records (input_root output_root : list string) (w : World)
    (cs : list call) :
  let s := run_calls cs (mkst w (new_tracker input_root output_root)) in
  let t := self s in
  stats_total (stats t) = Z.of_nat (List.length (records t))
  ∧ stats t !!! SUCCESS + stats t !!! SKIPPED + stats t !!! ERROR
    = Z.of_nat (List.length (records t))
  ∧ (forall c : call,
        let t' := self (do_call c s).2 in
        match (do_call c s).1 with
        | Ok _ =>
            exists r,
              records t' = records t ++ [r]
              ∧ PROCESSING_STATUS r = Status_value (call_status c)
              ∧ stats t' = <[call_status c := stats t !!! call_status c + 1]> (stats t)
              ∧ forall k, k ≠ call_status c -> stats t' !!! k = stats t !!! k
        | Raise _ => (do_call c s).2 = s
        end).
Proof.
  intros s t.
  assert (Hinv : tracker_inv t) by apply run_calls_inv, new_tracker_inv.
  split; [|split].
  - destruct Hinv as (a & b & c & -> & <-). apply stats_total_counts.
  - destruct Hinv as (a & b & c & -> & <-).
    destruct (counts_lookup a b c) as (-> & -> & ->). reflexivity.
  - intros c t'. pose proof (do_call_outcome c s Hinv) as H.
    destruct ((do_call c s).1); [|exact H].
    destruct H as (r & H1 & H2 & H3).
    exists r. repeat split; [exact H1|exact H2|exact H3|].
    intros k Hk. subst t'. rewrite H3. rewrite !lookup_total_alt.
    by rewrite lookup_insert_ne.
Qed.

End TrackerFacts.

(* ===================================================================== *)
(** * Properties of the filesystem                                         *)
(* ===================================================================== *)

Section FsFacts.

Implicit Types f g : gmap (list string) node.
Implicit Types p q : list string.

(** Where nothing is found, there is nothing, or something that cannot
    be looked at. *)
Lemma fs_exists_false f p :
  fs_exists f p = false ->
  p <> [] ∧ (f !! p = None ∨ exists text, f !! p = Some (Unreachable text)).
Proof.
  unfold fs_exists. destruct p; [discriminate|].
  intros H. split; [done|].
  destruct (f !! (s :: p)) as [[c| |text]|] eqn:E; try discriminate; eauto.
Qed.

Lemma fs_exists_true f p : p <> [] -> fs_exists f p = true -> is_Some (f !! p).
Proof.
  unfold fs_exists. destruct p; [done|]. intros _ H.
  destruct (f !! (s :: p)); [eauto|discriminate].
Qed.

Lemma fs_exists_mono f g p : f ⊆ g -> fs_exists f p = true -> fs_exists g p = true.
Proof.
  unfold fs_exists. destruct p; [done|]. intros Hs H.
  destruct (f !! (s :: p)) as [n|] eqn:E; [|discriminate].
  by rewrite (lookup_weaken _ _ _ _ E Hs).
Qed.

(** What is found can be looked at. *)
Lemma fs_exists_denied f p : fs_exists f p = true -> fs_denied f p = None.
Proof.
  unfold fs_exists, fs_denied. destruct p; [done|].
  by destruct (f !! (s :: p)) as [[c| |text]|].
Qed.

Lemma fs_denied_exists f p e : fs_denied f p = Some e -> fs_exists f p = false.
Proof.
  intros H. destruct (fs_exists f p) eqn:E; [|done].
  apply fs_exists_denied in E. congruence.
Qed.

Lemma fs_denied_mono f g p e : f ⊆ g -> fs_denied f p = Some e -> fs_denied g p = Some e.
Proof.
  unfold fs_denied. destruct p; [done|]. intros Hs H.
  destruct (f !! (s :: p)) as [n|] eqn:E; [|discriminate].
  by rewrite (lookup_weaken _ _ _ _ E Hs).
Qed.

(** Nothing found and nothing denied: the path is free. *)
Lemma fs_free f p : fs_exists f p = false -> fs_denied f p = None -> f !! p = None.
Proof.
  intros H1 H2. apply fs_exists_false in H1 as [Hp [H|[text H]]]; [done|].
  unfold fs_denied in H2. destruct p; [done|]. by rewrite H in H2.
Qed.

Lemma fs_is_dir_not_exists f p : fs_exists f p = false -> fs_is_dir f p = false.
Proof.
  intros H. apply fs_exists_false in H as [Hp [H|[text H]]];
    unfold fs_is_dir; destruct p; try done; by rewrite H.
Qed.

Lemma fs_exists_insert_file f p c : fs_exists (<[p := File c]> f) p = true.
Proof. unfold fs_exists. destruct p; [done|]. by rewrite lookup_insert_eq. Qed.

Lemma fs_exists_insert_dir f p : fs_exists (<[p := Dir]> f) p = true.
Proof. unfold fs_exists. destruct p; [done|]. by rewrite lookup_insert_eq. Qed.

Lemma fs_stat_size_mono f g p n :
  f ⊆ g -> fs_stat_size f p = Ok n -> fs_stat_size g p = Ok n.
Proof.
  unfold fs_stat_size. destruct p; [done|]. intros Hs H.
  destruct (f !! (s :: p)) as [nd|] eqn:E; [|done].
  by rewrite (lookup_weaken _ _ _ _ E Hs).
Qed.

Lemma fs_stat_size_exists f p : fs_exists f p = true -> exists n, fs_stat_size f p = Ok n.
Proof.
  unfold fs_exists, fs_stat_size. destruct p; [eauto|].
  destruct (f !! (s :: p)) as [[c| |text]|]; try discriminate; eauto.
Qed.

Lemma fs_read_mono f g p c : f ⊆ g -> fs_read f p = Ok c -> fs_read g p = Ok c.
Proof.
  unfold fs_read. intros Hs H.
  destruct (f !! p) as [[c'| |text]|] eqn:E; simplify_eq.
  - by rewrite (lookup_weaken _ _ _ _ E Hs).
  - destruct p; done.
Qed.

Lemma all_dirs_mono f g base todo : f ⊆ g -> all_dirs f base todo -> all_dirs g base todo.
Proof.
  intros Hs. revert base. induction todo as [|c todo IH]; intros base; [done|].
  simpl. intros [H1 H2]. split; [by eapply lookup_weaken|by apply IH].
Qed.

Lemma fs_mkdir_from_spec f g base todo :
  fs_mkdir_from f base todo = Ok g -> f ⊆ g ∧ all_dirs g base todo.
Proof.
  revert f base. induction todo as [|c todo IH]; intros f base H; simpl in H.
  - simplify_eq. done.
  - destruct (f !! (base ++ [c])) as [[?| |?]|] eqn:E; [done| |done|].
    + apply IH in H as [H1 H2]. split; [done|]. split; [|done].
      by eapply lookup_weaken.
    + apply IH in H as [H1 H2].
      assert (f ⊆ g) by (etrans; [by apply insert_subseteq|done]).
      split; [done|]. split; [|done].
      apply (lookup_weaken (<[base ++ [c]:=Dir]> f)); [apply lookup_insert_eq|exact H1].
Qed.

Lemma fs_mkdir_from_done f base todo :
  all_dirs f base todo -> fs_mkdir_from f base todo = Ok f.
Proof.
  revert base. induction todo as [|c todo IH]; intros base; [done|].
  simpl. intros [H1 H2]. rewrite H1. by apply IH.
Qed.

Lemma fs_write_fresh f g p c :
  fs_exists f p = false -> fs_write f p c = Ok g -> g = <[p := File c]> f ∧ f ⊆ g.
Proof.
  intros He H. apply fs_exists_false in He as [Hp [He|[text He]]];
    unfold fs_write in H; (destruct p; [done|]); rewrite He in H; [|done].
  destruct (fs_is_dir f _); simplify_eq. split; [done|]. by apply insert_subseteq.
Qed.

Lemma fs_copy2_fresh f g src dst :
  fs_exists f dst = false -> fs_copy2 f src dst = Ok g ->
  f ⊆ g ∧ fs_exists g dst = true.
Proof.
  intros He H. unfold fs_copy2 in H. rewrite (fs_is_dir_not_exists _ _ He) in H.
  destruct (bool_decide (src = dst) && fs_exists f src); [done|].
  destruct (fs_read f src); [|done].
  apply fs_write_fresh in H as [-> H]; [|done]. split; [done|].
  apply fs_exists_insert_file.
Qed.

Lemma path_strip_prefix_app root l : path_strip_prefix root (root ++ l) = Some l.
Proof. induction root as [|a root IH]; simpl; [done|]. by rewrite String.eqb_refl. Qed.


End FsFacts.

(* ===================================================================== *)
(** * Properties of the date in a file name                                *)
(* ===================================================================== *)

Section FilenameFacts.

Import Convert Scenario.

Lemma get_file_datetime_result {O : Type} (p : list string) (s : st O) :
  (_get_file_datetime_from_name p s).1 = Ok (file_date p).
Proof.
  unfold _get_file_datetime_from_name. destruct (file_date p); reflexivity.
Qed.

Lemma last_n_length (n : nat) (t : text) :
  (n <= List.length t)%nat -> List.length (last_n n t) = n.
Proof. intros H. unfold last_n. rewrite length_drop. lia. Qed.

(** The date of a stem that ends in the [DDMMYYYY] of a valid date. *)
Lemma file_date_format (p : list string) (prefix : string) (d : date) :
  valid_date d -> path_stem p = prefix +:+ format_DDMMYYYY d -> file_date p = Some d.
Proof.
  intros Hv Hp. unfold file_date. rewrite Hp.
  destruct (chars_format_DDMMYYYY d Hv) as [Ha Hc].
  rewrite (chars_app_ascii _ _ Ha), last_n_app by (by rewrite Hc).
  by apply strptime_dmY_format.
Qed.

(** C6 (amended). The function never raises.  The date of a name whose
    stem ends in the [DDMMYYYY] of a valid date is that date.  For a
    stem of eight characters or more the function gives what the last
    eight characters read as: two characters for a day ([01] to [31]
    in ASCII digits, the second a decimal digit of any script after a
    [1] or a [2], or a space and a digit from [1] to [9]), two ASCII
    digits for a month, four decimal digits of any script for a year,
    if the three make a date of the calendar; and [None] for every
    other tail. *)
Theorem file_date_of_name {O : Type} (p : list string) (d : date) (s : st O) :
  (_get_file_datetime_from_name p s).1 = Ok (file_date p)
  ∧ (valid_date d ->
     (exists prefix, path_stem p = prefix +:+ format_DDMMYYYY d) ->
     (_get_file_datetime_from_name p s).1 = Ok (Some d))
  ∧ ((8 <= List.length (chars (path_stem p)))%nat ->
     (_get_file_datetime_from_name p s).1
     = Ok (tail_date (last_n 8 (chars (path_stem p))))).
Proof.
  rewrite get_file_datetime_result. split; [reflexivity|]. split.
  - intros Hv [prefix Hp]. f_equal. by apply (file_date_format p prefix).
  - intros Hlen. f_equal. unfold file_date.
    apply strptime_dmY_tail. by apply last_n_length.
Qed.

Lemma file_date_of_name_witness :
  let p := ["data"; "201908"; "sec_bhavdata_full_23082019.csv"] in
  let d := mkdate 2019 8 23 in
  let s := mkst (mkWorld ∅ [] [] 0) tt in
  (_get_file_datetime_from_name p s).1 = Ok (Some d)
  ∧ (_get_file_datetime_from_name p s).1
    = Ok (tail_date (last_n 8 (chars (path_stem p)))).
Proof.
  intros p d s.
  destruct (file_date_of_name p d s) as (_ & H1 & H2).
  split.
  - apply H1; [reflexivity|]. exists "sec_bhavdata_full_". reflexivity.
  - apply H2. vm_compute. lia.
Defined.

(** C6 as stated fails: these eight last characters are the [DDMMYYYY]
    of no valid date, and the function gives a date. *)
Lemma malformed_tail_accepted :
  let p := padded_name in
  let s := mkst (mkWorld ∅ [] [] 0) tt in
  (~ exists d, valid_date d
               ∧ last_n 8 (chars (path_stem p)) = chars (format_DDMMYYYY d))
  ∧ (_get_file_datetime_from_name p s).1 = Ok (Some (mkdate 2019 1 1)).
Proof.
  intros p s. split; [|reflexivity].
  intros (d & Hv & H). destruct (chars_format_DDMMYYYY d Hv) as [_ E].
  apply valid_date_bounds in Hv as (_ & _ & Hd).
  rewrite E in H.
  change (last_n 8 (chars (path_stem p))) with [32; 49; 48; 49; 50; 48; 49; 57] in H.
  injection H as H _. revert H. Z.to_euclidean_division_equations; lia.
Qed.

(** Digits of another script are read as well: the stem that ends in
    [230820] and the fullwidth digits of [19] gives 23 August 2019. *)
Lemma fullwidth_digits_read :
  chars (path_stem fullwidth_name)
  = chars "sec_bhavdata_full_230820" ++ [65297; 65305]
  ∧ file_date fullwidth_name = Some (mkdate 2019 8 23).
Proof. split; reflexivity. Qed.

End FilenameFacts.

(* ===================================================================== *)
(** * Properties of the acquisition loop                                   *)
(* ===================================================================== *)

Section DownloadFacts.

Import Download.

Variable server : string -> http_result.
Variable json_decode : bytes -> option json.
Variable zip_decode : bytes -> option (list (string * bytes)).
Variable csv_rows : bytes -> outcome (list (list string)).

Local Abbreviation step := (download_range_step server json_decode zip_decode csv_rows).

(** C8. On a Saturday or a Sunday the body of the loop makes no
    request, does not refresh the session, does not touch the files or
    the clock, and appends the one entry of a weekend to the ledger. *)
Theorem weekend_step_skips (d : date) (count : Z) (s : st NSEBhavcopyDownloader) :
  weekday d = 5 ∨ weekday d = 6 ->
  let r := step d count s in
  requests (world r.2) = requests (world s)
  ∧ clock (world r.2) = clock (world s)
  ∧ fs (world r.2) = fs (world s)
  ∧ _last_cookie_time (self r.2) = _last_cookie_time (self s)
  ∧ failed_dates (self r.2) = failed_dates (self s)
  ∧ skipped_dates (self r.2) = skipped_dates (self s)
  ∧ statuses (self r.2) = statuses (self s) ++ [weekend_entry d].
Proof.
  intros Hw r. subst r. unfold download_range_step.
  assert (E : (WEEKEND_START <=? weekday d) = true)
    by (apply Z.leb_le; unfold WEEKEND_START; lia).
  rewrite E. unfold add_status, increment.
  destruct s as [w o].
  destruct (next_day d);
    cbv [bind ret raise logmsg get_world set_world get_self set_self world self snd fst];
    simpl; repeat split; reflexivity.
Qed.

Lemma write_members_effect folder (members : list (string * bytes))
    (s s' : st NSEBhavcopyDownloader) o :
  Convert.for_each members (fun '(name, data) => write_file (folder ++ [name]) data) s
  = (o, s') ->
  requests (world s') = requests (world s) ∧ self s' = self s
  ∧ clock (world s') = clock (world s) ∧ log (world s') = log (world s).
Proof.
  revert s s'. induction members as [|[n c] l IH]; intros s s' H; simpl in H.
  - cbv [ret] in H. by simplify_eq.
  - destruct s as [w d]. run_in H. split_run H; simplify_eq; auto.
    apply IH in H. simpl in H. exact H.
Qed.

Lemma extractall_effect zip_path folder (s s' : st NSEBhavcopyDownloader) o :
  extractall zip_decode zip_path folder s = (o, s') ->
  requests (world s') = requests (world s) ∧ self s' = self s
  ∧ clock (world s') = clock (world s) ∧ log (world s') = log (world s).
Proof.
  unfold extractall. intros H. destruct s as [w d]. run_in H.
  destruct (fs_read (fs w) zip_path); [|by simplify_eq].
  cbv beta iota in H.
  destruct (zip_decode a); [|by simplify_eq].
  by apply write_members_effect in H.
Qed.

Lemma session_get_effect url (s s' : st NSEBhavcopyDownloader) o :
  session_get server url s = (o, s') ->
  requests (world s') = requests (world s) ++ [url]
  ∧ self s' = self s ∧ fs (world s') = fs (world s).
Proof.
  unfold session_get. intros H. destruct s as [w d]. run_in H.
  split_run H; simplify_eq; auto.
Qed.

Lemma get_cookie_effect (s s' : st NSEBhavcopyDownloader) o :
  _get_cookie server s = (o, s') ->
  (exists b, o = Ok b)
  ∧ requests (world s') = requests (world s) ++ [HOME_URL]
  ∧ self s' = self s ∧ fs (world s') = fs (world s).
Proof.
  unfold _get_cookie, session_get. intros H. destruct s as [w d]. run_in H.
  split_run H; simplify_eq; eauto.
Qed.

Lemma refresh_cookie_effect (s s' : st NSEBhavcopyDownloader) o :
  refresh_cookie server s = (o, s') ->
  o = Ok tt
  ∧ requests (world s) `prefix_of` requests (world s')
  ∧ output_dir (self s') = output_dir (self s)
  ∧ fs (world s') = fs (world s).
Proof.
  unfold refresh_cookie. intros H. destruct s as [w d]. run_in H.
  split_run H; simplify_eq; simpl.
  all: try (apply get_cookie_effect in E0 as ([b Hb] & Hr & Hs & Hf); simplify_eq; simpl in * ).
  all: repeat split; auto; try congruence.
  all: try (rewrite Hr; by apply prefix_app_r).
Qed.

(** Brings in what is known of the effect of a call that was left
    folded. *)
Ltac effects :=
  repeat match goal with
    | H : session_get _ _ _ = _ |- _ =>
        apply session_get_effect in H; destruct H as (? & ? & ?)
    | H : _get_cookie _ _ = _ |- _ =>
        apply get_cookie_effect in H; destruct H as ([? ?] & ? & ? & ?)
    | H : refresh_cookie _ _ = _ |- _ =>
        apply refresh_cookie_effect in H; destruct H as (? & ? & ? & ?)
    | H : extractall _ _ _ _ = _ |- _ =>
        apply extractall_effect in H; destruct H as (? & ? & ? & ?)
    end.

Lemma zip_from_json_effect date_str r (s s' : st NSEBhavcopyDownloader) o :
  zip_from_json server json_decode date_str r s = (o, s') ->
  requests (world s) `prefix_of` requests (world s')
  ∧ output_dir (self s') = output_dir (self s)
  ∧ fs (world s') = fs (world s).
Proof.
  unfold zip_from_json, add_failed. intros H. destruct s as [w d]. run_in H.
  split_run H; simplify_eq; effects; simplify_eq; simpl in *.
  all: repeat split; auto; try congruence.
  all: try match goal with H : requests _ = _ |- _ => rewrite H; by apply prefix_app_r end.
Qed.



Ltac effects' :=
  repeat match goal with
    | H : zip_from_json _ _ _ _ _ = _ |- _ =>
        apply zip_from_json_effect in H; destruct H as (? & ? & ?)
    | _ => progress effects
    end.

Lemma list_app_self_nil {A} (l k : list A) : l = l ++ k -> k = [].
Proof.
  intros H. apply (f_equal List.length) in H. rewrite length_app in H.
  destruct k; [reflexivity|simpl in H; lia].
Qed.

Lemma prefix_snoc_ne {A} (l k : list A) (x : A) :
  (l ++ [x]) `prefix_of` k -> k <> l.
Proof.
  intros [m ->] H. rewrite <- !app_assoc in H. symmetry in H.
  apply list_app_self_nil in H. discriminate.
Qed.

(** Making a directory leaves what is below it as it was. *)
Lemma fs_mkdir_lookup_child (f a : gmap (list string) node) (p : list string)
    (x : string) :
  fs_mkdir f p = Ok a -> a !! (p ++ [x]) = f !! (p ++ [x]).
Proof.
  unfold fs_mkdir. intros H.
  assert (Hne : p <> p ++ [x]).
  { intros E. apply (f_equal List.length) in E. rewrite length_app in E. simpl in E. lia. }
  destruct p as [|c p]; [by simplify_eq|].
  repeat case_match; simplify_eq; try reflexivity.
  by rewrite lookup_insert_ne.
Qed.

Lemma fs_mkdir_child (f a : gmap (list string) node) (p : list string) (x : string) :
  fs_mkdir f p = Ok a -> fs_exists a (p ++ [x]) = fs_exists f (p ++ [x]).
Proof. intros H. unfold fs_exists. by rewrite (fs_mkdir_lookup_child _ _ _ _ H). Qed.

Lemma fs_mkdir_child_denied (f a : gmap (list string) node) (p : list string)
    (x : string) :
  fs_mkdir f p = Ok a -> fs_denied a (p ++ [x]) = fs_denied f (p ++ [x]).
Proof. intros H. unfold fs_denied. by rewrite (fs_mkdir_lookup_child _ _ _ _ H). Qed.

(** Turns what is known of the requests into facts on their number. *)
Ltac count_requests :=
  repeat match goal with
    | H : _ `prefix_of` _ |- _ => apply prefix_length in H
    | H : requests _ = _ ++ [_] |- _ =>
        apply (f_equal List.length) in H; rewrite length_app in H; simpl in H
    | H : requests _ = requests _ |- _ => apply (f_equal List.length) in H
    end.

Lemma download_and_extract_spec (d : date) (s s' : st NSEBhavcopyDownloader) o :
  download_and_extract server json_decode zip_decode d s = (o, s') ->
  (exists b, o = Ok b)
  ∧ output_dir (self s') = output_dir (self s)
  ∧ (requests (world s') = requests (world s)
     <-> (exists e, fs_mkdir (fs (world s)) (month_folder_of s d) = Raise e)
         ∨ stops_at (fs (world s)) (month_folder_of s d ++ [expected_name d])).
Proof.
  unfold download_and_extract, download_and_extract_body, _get_month_folder,
    add_failed, add_skipped, month_folder_of, stops_at.
  intros H. destruct s as [w self]. run_in H.
  split_run H.
  all: simplify_eq; effects'; simplify_eq; simpl in *.
  all: split; [eauto|]; split; [congruence|].
  all: try solve [split; [intros _; left; eauto|reflexivity]].
  all: repeat match goal with
         | H : fs_mkdir _ _ = Ok _, H' : fs_exists _ _ = _ |- _ =>
             rewrite (fs_mkdir_child _ _ _ _ H) in H'
         | H : fs_mkdir _ _ = Ok _, H' : fs_denied _ _ = _ |- _ =>
             rewrite (fs_mkdir_child_denied _ _ _ _ H) in H'
         end.
  all: try solve [split; [intros _; right; left; assumption|reflexivity]].
  all: try solve [split; [intros _; right; right; eauto|reflexivity]].
  all: split; [intros Heq; exfalso; count_requests; lia
              |intros [[? ?]|[?|[? ?]]]; congruence].
Qed.


Lemma outcome_of_download_effect d date_str ok count
    (s s' : st NSEBhavcopyDownloader) o :
  outcome_of_download csv_rows d date_str ok count s = (o, s') ->
  requests (world s') = requests (world s) ∧ self s' = self s
  ∧ clock (world s') = clock (world s).
Proof.
  unfold outcome_of_download, _get_month_folder, _get_csv_shape.
  intros H. destruct s as [w self]. run_in H.
  split_run H; simplify_eq; auto.
Qed.

(** C1 (amended). The body of the loop makes no request exactly for the
    dates of [no_fetch_condition]: a Saturday or a Sunday, a date whose
    file is there in the directory of existing files or in the month
    folder, a date for which [exists()] raises on one of these two
    paths, and a date whose month folder cannot be made.  The day of
    the week and the files decide, and the Holiday Oracle has no part
    in it. *)
Theorem fetch_skipped_iff (d : date) (count : Z) (s : st NSEBhavcopyDownloader) :
  requests (world (step d count s).2) = requests (world s)
  <-> no_fetch_condition d s.
Proof.
  destruct (step d count s) as [o s'] eqn:H. simpl.
  unfold download_range_step, in_existing_dir, add_status, increment in H.
  unfold no_fetch_condition, WEEKEND_START in *.
  destruct s as [w self]. run_in H.
  split_run H; simplify_eq.
  all: repeat match goal with
         | H : download_and_extract _ _ _ _ _ = _ |- _ =>
             apply download_and_extract_spec in H; destruct H as ([? ?] & ? & ?)
         | H : outcome_of_download _ _ _ _ _ _ = _ |- _ =>
             apply outcome_of_download_effect in H; destruct H as (? & ? & ?)
         end; simplify_eq; simpl in *.
  all: try (apply Z.leb_le in E); try (apply Z.leb_gt in E).
  all: try solve [split; [intros _; left; exact E|reflexivity]].
  all: try solve [split; [intros _; right; left; eexists; split;
                                            [eassumption|left; assumption]
                         |reflexivity]].
  all: try solve [split; [intros _; right; left; eexists; split;
                                            [eassumption|right; eauto]
                         |reflexivity]].
  all: repeat match goal with
         | H : requests ?a = requests ?b |- context [requests ?a] => rewrite H
         end.
  all: match goal with H : _ <-> _ |- _ => rewrite H end.
  all: split; [intros HH; right; right; exact HH|].
  all: intros [?|[(dir & ? & [?|[? ?]])|HH]]; [lia|congruence|congruence|exact HH].
Qed.

End DownloadFacts.

(* ===================================================================== *)
(** * The acquisition loop on the sample runs                              *)
(* ===================================================================== *)

Section DownloadExamples.

Import Download Scenario.

Lemma weekend_step_skips_witness :
  let d := mkdate 2025 8 16 in
  let r := download_range_step server_404 no_json unzip no_rows d 0 start0 in
  weekday d = 5
  ∧ requests (world r.2) = []
  ∧ statuses (self r.2) = [weekend_entry d].
Proof.
  intros d r.
  destruct (weekend_step_skips server_404 no_json unzip no_rows d 0 start0)
    as (H1 & _ & _ & _ & _ & _ & H2); [left; reflexivity|].
  split; [reflexivity|]. split; [exact H1 | exact H2].
Defined.

(** C1 as stated fails: 15 August 2025 is a Friday that the Oracle
    flags in both of its modes, and the loop requests it from the
    remote side and records what the remote side answered. *)
Lemma holiday_is_fetched :
  let d := mkdate 2025 8 15 in
  let listed := (load_holidays (FileLines ["2025-08-15"]) new_manager).1 in
  let r := download_range_step server_404 no_json unzip no_rows d 0 start0 in
  (is_public_holiday FileMissing new_manager (ADate d)).2 = true
  ∧ (is_public_holiday FileMissing listed (ADate d)).2 = true
  ∧ weekday d = 4
  ∧ requests (world r.2) = [HOME_URL; _build_url d]
  ∧ map entry_status (statuses (self r.2)) = ["failed"]
  ∧ map entry_reason (statuses (self r.2)) = ["No data available (404)"].
Proof. vm_compute. repeat split; reflexivity. Qed.

(** Where [exists()] raises on the file of the date in the directory
    of existing files, the exception leaves the body of the loop: no
    request is made and nothing is recorded. *)
Lemma denied_existing_file_leaves_step :
  let d := mkdate 2025 8 15 in
  let s := start_denied existing_csv in
  let r := download_range_step server_404 no_json unzip no_rows d 0 s in
  no_fetch_condition d s
  ∧ r.1 = Raise (unreachable PERMISSION_DENIED existing_csv)
  ∧ requests (world r.2) = []
  ∧ statuses (self r.2) = [].
Proof.
  split; [|vm_compute; repeat split; reflexivity].
  right; left. exists ["existing"]. split; [reflexivity|].
  right. vm_compute. eauto.
Qed.

(** Where it raises on the file in the month folder, the date is
    recorded as failed with the text of the exception, and no request
    is made either. *)
Lemma denied_output_file_fails :
  let d := mkdate 2025 8 15 in
  let s := start_denied output_csv in
  let r := download_range_step server_404 no_json unzip no_rows d 0 s in
  no_fetch_condition d s
  ∧ r.1 = Ok (mkdate 2025 8 16, 0)
  ∧ requests (world r.2) = []
  ∧ map entry_status (statuses (self r.2)) = ["failed"]
  ∧ map entry_reason (statuses (self r.2))
    = ["[Errno 13] Permission denied: 'data/202508/sec_bhavdata_full_15082025.csv'"].
Proof.
  split; [|vm_compute; repeat split; reflexivity].
  right; right; right. right. vm_compute. eauto.
Qed.

(** C2, the failing run: the remote side answers 14 August 2025 with an
    archive that holds no file of the expected name.  The archive is
    extracted, [download_and_extract] gives [True], and the [stat] of
    the expected file raises out of the loop and out of
    [download_range]: the date gets no entry in the ledger and the
    status file is not written. *)
Theorem stat_of_missing_csv_leaves_loop :
  let d := mkdate 2025 8 14 in
  let expected := ["data"; "202508"; "sec_bhavdata_full_14082025.csv"] in
  let r := download_range server_zip no_json unzip no_rows json_text stamp d d start0 in
  weekday d = 3
  ∧ r.1 = Raise (no_such_file expected)
  ∧ statuses (self r.2) = []
  ∧ failed_dates (self r.2) = []
  ∧ fs (world r.2) !! ["data"; "202508"; "bhavcopy_full.csv"]
    = Some (File (encode "SYMBOL,SERIES"))
  ∧ fs (world r.2) !! expected = None
  ∧ fs (world r.2) !! status_csv stamp (clock (world r.2)) = None.
Proof. vm_compute. repeat split; reflexivity. Qed.

(** The same for the body of the loop alone. *)
Lemma stat_of_missing_csv_leaves_step :
  let d := mkdate 2025 8 14 in
  let r := download_range_step server_zip no_json unzip no_rows d 0 start0 in
  r.1 = Raise (no_such_file ["data"; "202508"; "sec_bhavdata_full_14082025.csv"])
  ∧ statuses (self r.2) = [].
Proof. vm_compute. split; reflexivity. Qed.

(** [write_csv] opens its file for writing whatever is there. *)
Lemma write_csv_overwrites (now_stamp : Z -> string) (old : bytes)
    (s : st NSEBhavcopyDownloader) :
  let path := status_csv now_stamp (clock (world s)) in
  fs (world s) !! path = Some (File old) ->
  fs_is_dir (fs (world s)) BASE_LOG_DIR = true ->
  let r := write_csv now_stamp s in
  r.1 = Ok tt
  ∧ fs (world r.2) !! path
    = Some (File (encode (csv_text status_fieldnames
                            (map entry_fields (statuses (self s))))))
  ∧ log (world r.2)
    = log (world s)
      ++ [(INFO, "[LOG] Download status logged to: " +:+ path_str path)].
Proof.
  intros path Hold Hdir r. subst r.
  destruct (write_csv now_stamp s) as [o s'] eqn:H.
  unfold write_csv in H. destruct s as [w d]. run_in H. simpl in *.
  subst path. rewrite Hold in H. unfold BASE_LOG_DIR in Hdir. rewrite Hdir in H.
  simplify_eq. simpl.
  split; [reflexivity|]. split; [apply lookup_insert_eq|reflexivity].
Qed.

(** C3, the failing run: the status file of the acquisition is there
    already when [write_csv] is called.  The file is written over, its
    old contents are lost, and no warning is logged. *)
Theorem write_csv_replaces_existing_file :
  let path := status_csv stamp (clock (world start1)) in
  let r := write_csv stamp start1 in
  fs (world start1) !! path = Some (File kept)
  ∧ r.1 = Ok tt
  ∧ fs (world r.2) !! path
    = Some (File (encode (csv_text status_fieldnames
                            [entry_fields (weekend_entry (mkdate 2025 8 16))])))
  ∧ fs (world r.2) !! path <> Some (File kept)
  ∧ log (world r.2)
    = [(INFO, "[LOG] Download status logged to: logs/download_status-20250815_000000.csv")].
Proof. vm_compute. repeat split; try reflexivity. discriminate. Qed.

End DownloadExamples.

(* ===================================================================== *)
(** * Properties of the conversion of a file                               *)
(* ===================================================================== *)

Section ConvertFacts.

Import Convert.
Variable parse_csv : bytes -> outcome DataFrame.
Variable encode_parquet : DataFrame -> write_result.

Lemma add_record_error_ok input copied (s : st ProcessingTracker) n rel relc :
  fs_stat_size (fs (world s)) input = Ok n ->
  path_strip_prefix (_input_root_path (self s)) input = Some rel ->
  path_strip_prefix (_output_root_path (self s)) copied = Some relc ->
  exists w, add_record input ERROR None NoShape (Some copied) s
            = (Ok tt, mkst w (append_record (error_record input n rel relc) ERROR (self s)))
            ∧ fs w = fs (world s)
            ∧ exists extra, log w = log (world s) ++ extra.
Proof.
  intros Hn Hrel Hrelc.
  destruct (add_record input ERROR None NoShape (Some copied) s) as [o s'] eqn:H.
  unfold add_record, relative_str, _get_file_datetime_from_name in H.
  destruct s as [w t]. run_in H. simpl in *.
  rewrite Hn, Hrel, Hrelc in H.
  unfold error_record.
  split_run H; simplify_eq; eexists; (split; [reflexivity|]); simpl;
    (split; [reflexivity|]); eexists; rewrite <- ?app_assoc; reflexivity.
Qed.

Lemma add_record_keeps_files input status output shape copied
    (s s' : st ProcessingTracker) o :
  add_record input status output shape copied s = (o, s') ->
  fs (world s') = fs (world s).
Proof.
  intros H. apply add_record_inv in H as [(_ & r & w & -> & Hw & _)|(e & _ & ->)];
    [exact Hw|reflexivity].
Qed.

Lemma convert_body_raise raw_root input out copied (s s1 : st ProcessingTracker) e :
  convert_body parse_csv encode_parquet raw_root input out copied s = (Raise e, s1) ->
  self s1 = self s ∧ exists extra, log (world s1) = log (world s) ++ extra.
Proof.
  unfold convert_body, read_csv, to_parquet. intros H.
  destruct s as [w t]. run_in H.
  split_run H; simplify_eq; simpl.
  all: try (split; [reflexivity|]; eexists; try reflexivity; by rewrite app_nil_r).
  all: apply add_record_inv in H as [(? & _)|(e' & _ & ->)]; [done|].
  all: split; [reflexivity|]; eexists; reflexivity.
Qed.

Lemma conversion_error_recorded_1 raw_root input out copied
    (s s1 : st ProcessingTracker) (e : exn) (n : Z) (rel rel' relc : list string) :
  convert_body parse_csv encode_parquet raw_root input out copied s = (Raise e, s1) ->
  fs_stat_size (fs (world s1)) input = Ok n ->
  path_strip_prefix raw_root input = Some rel ->
  path_strip_prefix (_input_root_path (self s)) input = Some rel' ->
  path_strip_prefix (_output_root_path (self s)) copied = Some relc ->
  exists s2,
    convert_file parse_csv encode_parquet raw_root input out copied s = (Ok tt, s2)
    ∧ self s2 = append_record (error_record input n rel' relc) ERROR (self s)
    ∧ (LOG_ERROR, "[ERROR] Failed to process " +:+ path_str rel +:+ ": " +:+ message e)
      ∈ log (world s2)
    ∧ fs (world s2) = fs (world s1).
Proof.
  intros Hbody Hn Hrel Hrel' Hrelc.
  destruct (convert_body_raise _ _ _ _ _ _ _ Hbody) as [Hself _].
  destruct (convert_file parse_csv encode_parquet raw_root input out copied s)
    as [o s2] eqn:H.
  unfold convert_file, try_except in H. rewrite Hbody in H.
  unfold convert_handler in H. destruct s1 as [w1 t1]. simpl in Hself, Hn. subst t1.
  run_in H. rewrite Hrel in H. cbv beta iota in H.
  edestruct (add_record_error_ok input copied) as (w2 & Hadd & Hfs & extra & Hlog);
    [| | |rewrite Hadd in H]; [exact Hn|exact Hrel'|exact Hrelc|].
  simplify_eq. eexists. split; [reflexivity|]. simpl in *.
  split; [reflexivity|]. split; [|exact Hfs].
  rewrite Hlog. apply elem_of_app. left. apply elem_of_app. right.
  apply list_elem_of_singleton. reflexivity.
Qed.


Lemma parse_failure_keeps_files raw_root input out copied
    (s s2 : st ProcessingTracker) (e : exn) (rel : list string) (o : outcome unit) :
  path_strip_prefix raw_root input = Some rel ->
  (fs_read (fs (world s)) input = Raise e
   ∨ exists c, fs_read (fs (world s)) input = Ok c ∧ parse_csv c = Raise e) ->
  convert_file parse_csv encode_parquet raw_root input out copied s = (o, s2) ->
  fs (world s2) = fs (world s).
Proof.
  intros Hrel Hfail H.
  unfold convert_file, convert_body, convert_handler, read_csv in H.
  destruct s as [w t]. run_in H. simpl in Hfail. rewrite Hrel in H. cbv beta iota in H.
  change (fs (add_log ?x w)) with (fs w) in H.
  destruct Hfail as [Hr|(c & Hr & Hp)]; rewrite Hr in H; cbv beta iota in H;
    try (rewrite Hp in H; cbv beta iota in H);
    by apply add_record_keeps_files in H.
Qed.

(** C9 (amended). When the reading of the CSV or the writing of the
    Parquet file raises, the exception is caught: its text goes to the
    error log, and one record is appended to the ledger, with status
    [Error], no output and no shape: a record has no column for the
    text of the exception.  (The record is made from the size of the
    input and from its paths below the roots, which are to be there.)
    When it is the reading or the parsing that failed, the files are as
    they were: no curated file is made. *)
Theorem conversion_error_recorded raw_root input out copied
    (s : st ProcessingTracker) (e : exn) (rel : list string) :
  path_strip_prefix raw_root input = Some rel ->
  (forall (s1 : st ProcessingTracker) (n : Z) (rel' relc : list string),
      convert_body parse_csv encode_parquet raw_root input out copied s = (Raise e, s1) ->
      fs_stat_size (fs (world s1)) input = Ok n ->
      path_strip_prefix (_input_root_path (self s)) input = Some rel' ->
      path_strip_prefix (_output_root_path (self s)) copied = Some relc ->
      exists s2,
        convert_file parse_csv encode_parquet raw_root input out copied s = (Ok tt, s2)
        ∧ self s2 = append_record (error_record input n rel' relc) ERROR (self s)
        ∧ (LOG_ERROR,
           "[ERROR] Failed to process " +:+ path_str rel +:+ ": " +:+ message e)
          ∈ log (world s2))
  ∧ (fs_read (fs (world s)) input = Raise e
     ∨ (exists c, fs_read (fs (world s)) input = Ok c ∧ parse_csv c = Raise e) ->
     fs (world (convert_file parse_csv encode_parquet raw_root input out copied s).2)
     = fs (world s)).
Proof.
  intros Hrel. split.
  - intros s1 n rel' relc Hbody Hn Hrel' Hrelc.
    destruct (conversion_error_recorded_1 _ _ _ _ _ _ _ _ _ _ _ Hbody Hn Hrel Hrel' Hrelc)
      as (s2 & H1 & H2 & H3 & _).
    exists s2. auto.
  - intros Hfail.
    destruct (convert_file parse_csv encode_parquet raw_root input out copied s)
      as [o s2] eqn:H.
    simpl. eapply parse_failure_keeps_files; eauto.
Qed.

End ConvertFacts.

Section ConvertExamples.

Import Convert Scenario.

Lemma conversion_error_recorded_witness :
  let s := convert_start in
  let rel := ["201908"; "sec_bhavdata_full_23082019.csv"] in
  let relc := ["raw"; "cm"; "year=2019"; "month=08"; "sec_bhavdata_full_23082019.csv"] in
  let r := convert_file parse_empty encode_ok ["raw"] input0 curated0 copied0 s in
  r.1 = Ok tt
  ∧ self r.2 = append_record (error_record input0 13 rel relc) ERROR (self s)
  ∧ (LOG_ERROR,
     "[ERROR] Failed to process " +:+ path_str rel +:+ ": " +:+ message no_columns)
    ∈ log (world r.2)
  ∧ fs (world r.2) = fs (world s).
Proof.
  intros s rel relc r.
  destruct (conversion_error_recorded parse_empty encode_ok ["raw"] input0 curated0
              copied0 s no_columns rel eq_refl) as [H1 H2].
  destruct (H1 (convert_body parse_empty encode_ok ["raw"] input0 curated0 copied0 s).2
               13 rel relc) as (s2 & Hc & Hs & Hl);
    [vm_compute; reflexivity|reflexivity|reflexivity|reflexivity|].
  assert (Hf : fs (world r.2) = fs (world s)).
  { apply H2. right. exists csv0. split; reflexivity. }
  subst r. rewrite Hc in *. simpl in *.
  split; [reflexivity|]. split; [exact Hs|]. split; [exact Hl|exact Hf].
Defined.

(** C9 as stated fails: the writer runs out of space after the first
    bytes of the Parquet file.  The exception is caught and logged, but
    the record of the ledger does not carry its text, and the
    truncated file stays at the curated destination. *)
Lemma failed_write_leaves_partial_file :
  let r := process_file parse_ok encode_disk_full ["raw"] ["out"] false input0
             convert_start in
  r.1 = Ok tt
  ∧ (exists rec, records (self r.2) = [rec]
                 ∧ PROCESSING_STATUS rec = "Error"
                 ∧ ~ record_carries rec (message disk_full))
  ∧ fs (world convert_start) !! curated0 = None
  ∧ fs (world r.2) !! curated0 = Some (File (encode "PA"))
  ∧ (LOG_ERROR,
     "[ERROR] Failed to process 201908/sec_bhavdata_full_23082019.csv: "
     +:+ message disk_full) ∈ log (world r.2).
Proof.
  intros r. split; [vm_compute; reflexivity|]. split.
  - eexists. split; [vm_compute; reflexivity|]. split; [reflexivity|].
    unfold record_carries. apply (bool_decide_eq_false_1 _). vm_compute. reflexivity.
  - split; [vm_compute; reflexivity|]. split; [vm_compute; reflexivity|].
    apply (bool_decide_eq_true_1 _). vm_compute. reflexivity.
Qed.

End ConvertExamples.

(* ===================================================================== *)
(** * Properties of a run of the conversion and of a second run            *)
(* ===================================================================== *)

Section RerunFacts.

Import Convert.

Variable parse_csv : bytes -> outcome DataFrame.
Variable encode_parquet : DataFrame -> write_result.

Ltac bool_facts :=
  repeat match goal with
    | H : negb _ = true |- _ => apply negb_true_iff in H
    | H : negb _ = false |- _ => apply negb_false_iff in H
    end.

(** Brings in what the operations on the files that succeeded did. *)
Ltac fs_facts :=
  repeat match goal with
    | H : fs_mkdir_parents _ _ = Ok _ |- _ =>
        apply fs_mkdir_from_spec in H; destruct H
    | H : fs_write ?f ?p _ = Ok _, H' : fs_exists ?f ?p = false |- _ =>
        apply (fs_write_fresh _ _ _ _ H') in H; destruct H
    | H : fs_copy2 ?f _ ?p = Ok _, H' : fs_exists ?f ?p = false |- _ =>
        apply (fs_copy2_fresh _ _ _ _ H') in H; destruct H
    end.

Ltac records_facts :=
  repeat match goal with
    | H : add_record _ _ _ _ _ _ = _ |- _ =>
        apply add_record_inv in H;
        destruct H as [(? & ? & ? & ? & ? & ? & ? & [? ?] & ?)|(? & ? & ?)]
    end.

(** [f ⊆ g] along the inclusions at hand. *)
Ltac fs_incl :=
  solve [ reflexivity | eassumption
        | etrans; [eassumption|]; solve [reflexivity | eassumption
                                        | etrans; [eassumption|]; eassumption ] ].

Lemma curate_file_spec (raw out p : list string) d (copied : list string) (s s' : st ProcessingTracker) o :
  curate_file parse_csv encode_parquet raw out false p d copied s = (o, s') ->
  fs (world s) ⊆ fs (world s')
  ∧ ((o = Ok tt
      ∧ exists r status,
          self s' = append_record r status (self s)
          ∧ PROCESSING_STATUS r = Status_value status
          ∧ FILE_NAME r = path_name p
          ∧ (status <> ERROR ->
             all_dirs (fs (world s')) [] (curated_out_dir out d)
             ∧ fs_exists (fs (world s')) (out_file_parquet out d) = true
             ∧ (exists n, fs_stat_size (fs (world s')) p = Ok n)
             ∧ is_Some (path_strip_prefix (_input_root_path (self s)) p)))
     ∨ (exists e, o = Raise e ∧ self s' = self s)).
Proof.
  intros H.
  unfold curate_file, convert_file, convert_body, convert_handler, read_csv,
    to_parquet in H.
  destruct s as [w t]. run_in H.
  split_run H.
  all: simplify_eq; records_facts; simplify_eq; simpl in *; fs_facts; simplify_eq.
  all: repeat match goal with H : fs _ = _ |- _ => rewrite H in *; clear H end.
  all: split; [try fs_incl|].
  all: try solve [right; eauto].
  all: try solve [left; split; [done|]; eexists _, ERROR; repeat split; eauto; done].
  all: try solve [left; split; [done|]; eexists _, SKIPPED; repeat split; eauto].
  all: try solve [left; split; [done|]; eexists _, SUCCESS; repeat split; eauto;
                  [eapply all_dirs_mono; eassumption | apply fs_exists_insert_file]].
Qed.

Lemma process_file_spec (raw out p : list string) (s s' : st ProcessingTracker) o :
  process_file parse_csv encode_parquet raw out false p s = (o, s') ->
  fs (world s) ⊆ fs (world s')
  ∧ ((o = Ok tt
      ∧ exists r status,
          self s' = append_record r status (self s)
          ∧ PROCESSING_STATUS r = Status_value status
          ∧ FILE_NAME r = path_name p
          ∧ (file_date p = None -> status = ERROR)
          ∧ (status <> ERROR ->
             settled (_input_root_path (self s)) out p (fs (world s'))))
     ∨ (exists e, o = Raise e ∧ self s' = self s)).
Proof.
  intros H.
  unfold process_file, _get_file_datetime_from_name in H.
  destruct s as [w t]. run_in H.
  split_run H.
  all: simplify_eq; records_facts; simplify_eq; simpl in *; bool_facts; fs_facts;
    simplify_eq.
  all: repeat match goal with
         | H : curate_file _ _ _ _ _ _ _ _ _ = _ |- _ =>
             apply curate_file_spec in H; simpl in H;
             destruct H as [? [(? & ? & ? & ? & ? & ? & ?)|(? & ? & ?)]]
         end; simplify_eq.
  all: repeat match goal with H : fs _ = _ |- _ => rewrite H in *; clear H end.
  all: split; [try fs_incl|].
  all: try solve [right; eauto].
  all: try solve [left; split; [done|]; eexists _, ERROR; repeat split; eauto; done].
  all: left; split; [done|]; eexists _, _; split; [eassumption|];
    repeat split; eauto; try done.
  all: intros Hne;
    match goal with H : _ <> ERROR -> _ |- _ => destruct (H Hne) as (? & ? & ? & ?) end.
  all: exists d; repeat split; auto.
  all: try (eapply all_dirs_mono; [|eassumption]; fs_incl).
  all: unfold copied_path.
  all: try (eapply fs_exists_mono; [|eassumption]; fs_incl).
Qed.

Lemma settled_mono (raw out p : list string) (f g : gmap (list string) node) :
  f ⊆ g -> settled raw out p f -> settled raw out p g.
Proof.
  intros Hs (d & Hd & H1 & H2 & H3 & H4 & [n H5] & H6).
  exists d. repeat split; eauto using all_dirs_mono, fs_exists_mono.
  exists n. by eapply fs_stat_size_mono.
Qed.

Lemma add_record_ok input status output shape copied (s : st ProcessingTracker) n :
  fs_stat_size (fs (world s)) input = Ok n ->
  is_Some (path_strip_prefix (_input_root_path (self s)) input) ->
  (forall o, output = Some o ->
             is_Some (path_strip_prefix (_output_root_path (self s)) o)
             ∧ fs_denied (fs (world s)) o = None) ->
  (forall c, copied = Some c ->
             is_Some (path_strip_prefix (_output_root_path (self s)) c)) ->
  exists r w,
    add_record input status output shape copied s
    = (Ok tt, mkst w (append_record r status (self s)))
    ∧ fs w = fs (world s)
    ∧ PROCESSING_STATUS r = Status_value status
    ∧ FILE_NAME r = path_name input.
Proof.
  intros Hn [rel Hrel] Hout Hcop.
  destruct (add_record input status output shape copied s) as [o s'] eqn:H.
  unfold add_record, relative_str, _get_file_datetime_from_name in H.
  destruct s as [w t]. run_in H. simpl in *.
  rewrite Hn in H.
  split_run H; simplify_eq.
  all: try (edestruct Hout as [[? ?] ?]; [reflexivity|]; simplify_eq).
  all: try (edestruct Hcop as [? ?]; [reflexivity|]; simplify_eq).
  all: try match goal with
         | H : fs_exists ?f ?p = true, H' : fs_stat_size ?f ?p = Raise _ |- _ =>
             destruct (fs_stat_size_exists _ _ H); congruence
         end.
  all: eexists _, _; split; [reflexivity|]; simpl; auto.
Qed.

Lemma strip_out_file (out : list string) (d : date) :
  is_Some (path_strip_prefix out (out_file_parquet out d)).
Proof.
  unfold out_file_parquet, curated_out_dir. rewrite <- app_assoc.
  rewrite path_strip_prefix_app. eauto.
Qed.

Lemma strip_copied (out : list string) (d : date) (x : string) :
  is_Some (path_strip_prefix out (raw_out_dir out d ++ [x])).
Proof.
  unfold raw_out_dir. rewrite <- app_assoc.
  rewrite path_strip_prefix_app. eauto.
Qed.

Lemma process_file_settled (raw out p : list string) (s : st ProcessingTracker) :
  settled raw out p (fs (world s)) ->
  tracker_roots raw out (self s) ->
  exists r w,
    process_file parse_csv encode_parquet raw out false p s
    = (Ok tt, mkst w (append_record r SKIPPED (self s)))
    ∧ fs w = fs (world s)
    ∧ PROCESSING_STATUS r = "Skipped"
    ∧ FILE_NAME r = path_name p.
Proof.
  intros (d & Hd & H1 & H2 & H3 & H4 & [n H5] & H6) [Hr1 Hr2].
  apply fs_mkdir_from_done in H1, H2.
  destruct (strip_out_file out d) as [l1 Hs1].
  destruct (strip_copied out d (path_name p)) as [l2 Hs2].
  destruct (process_file parse_csv encode_parquet raw out false p s) as [o s'] eqn:H.
  unfold process_file, curate_file, _get_file_datetime_from_name in H.
  destruct s as [w t]. run_in H. simpl in Hr1, Hr2, H1, H2, H3, H4, H5, H6.
  subst raw out. rewrite Hd in H.
  unfold copied_path in H3.
  split_run H.
  all: unfold fs_mkdir_parents in *; simpl in *; simplify_eq; simpl in *;
    bool_facts; simplify_eq; simpl in *; try congruence.
  all: try (rewrite H1 in *; simplify_eq; try congruence).
  all: try (rewrite H2 in *; simplify_eq; try congruence).
  all: try match goal with
         | Hx : fs_exists ?f ?q = true, Hy : fs_denied ?f ?q = Some _ |- _ =>
             rewrite (fs_exists_denied _ _ Hx) in Hy; discriminate
         end.
  match type of H with
  | add_record ?a ?b ?c ?e ?g ?st = _ =>
      destruct (add_record_ok a b c e g st n) as (r & w' & Hadd & Hfs & Hst & Hnm)
  end; simpl; eauto.
  - intros o' [= <-]. split; [eauto|]. by apply fs_exists_denied.
  - intros c' [= <-]. eauto.
  - exists r, w'. rewrite Hadd in H. simplify_eq. auto.
Qed.

Local Abbreviation body raw out := (process_file parse_csv encode_parquet raw out false).

Lemma Status_value_converted (status : Status) (r : StatusRecord) :
  PROCESSING_STATUS r = Status_value status -> converted r -> status <> ERROR.
Proof. intros H [Hc|Hc] ->; rewrite H in Hc; discriminate. Qed.

Lemma bind_Ok_inv {O A B : Type} (m : M O A) (k : A -> M O B) (s s' : st O) (b : B) :
  bind m k s = (Ok b, s') ->
  exists a s1, m s = (Ok a, s1) ∧ k a s1 = (Ok b, s').
Proof.
  unfold bind. destruct (m s) as [[a|e] s1]; [eauto|discriminate].
Qed.

(** A run of the loop that ends: the files only grow, and each file
    has its record, in order. *)
Lemma for_each_spec (raw out : list string) (files : list (list string)) (s s' : st ProcessingTracker) :
  for_each files (body raw out) s = (Ok tt, s') ->
  tracker_roots raw out (self s) ->
  fs (world s) ⊆ fs (world s')
  ∧ tracker_roots raw out (self s')
  ∧ exists rs,
      records (self s') = records (self s) ++ rs
      ∧ Forall2 (fun p r => record_of p r
                            ∧ (converted r -> settled raw out p (fs (world s'))))
                files rs.
Proof.
  revert s. induction files as [|p files IH]; intros s H Hroots; simpl in H.
  - cbv [ret] in H. simplify_eq. split; [done|]. split; [done|].
    exists []. split; [by rewrite app_nil_r|constructor].
  - apply bind_Ok_inv in H as ([] & s1 & Hp & Hrest).
    apply process_file_spec in Hp
      as [Hfs [(_ & r & status & Hself & Hst & Hnm & Hnone & Hset)|(e & [=] & _)]].
    assert (Hroots1 : tracker_roots raw out (self s1)).
    { rewrite Hself. destruct Hroots. split; assumption. }
    destruct (IH s1 Hrest Hroots1) as (Hfs' & Hroots' & rs & Hrs & Hall).
    split; [by etrans|]. split; [done|].
    exists (r :: rs). split.
    + rewrite Hrs, Hself. simpl. by rewrite <- app_assoc.
    + constructor; [|done]. split.
      * split; [done|]. intros Hn. rewrite Hst, (Hnone Hn). reflexivity.
      * intros Hc. eapply settled_mono; [exact Hfs'|].
        destruct Hroots as [<- _]. apply Hset.
        by eapply Status_value_converted.
Qed.

(** The second run of the loop, on files that hold those of the end of
    the first. *)
Lemma for_each_again (raw out : list string) (files : list (list string)) (rs1 : list StatusRecord)
    (f1 : gmap (list string) node) (s s' : st ProcessingTracker) :
  Forall2 (fun p r => converted r -> settled raw out p f1) files rs1 ->
  f1 ⊆ fs (world s) ->
  tracker_roots raw out (self s) ->
  for_each files (body raw out) s = (Ok tt, s') ->
  exists rs2,
    records (self s') = records (self s) ++ rs2
    ∧ Forall2 (fun r1 r2 => converted r1 -> PROCESSING_STATUS r2 = "Skipped") rs1 rs2.
Proof.
  intros Hall. revert s. induction Hall as [|p r1 files rs1 Hp Hall IH];
    intros s Hf1 Hroots H; simpl in H.
  - cbv [ret] in H. simplify_eq. exists []. split; [by rewrite app_nil_r|constructor].
  - apply bind_Ok_inv in H as ([] & s1 & Hstep & Hrest).
    assert (Hs1 : exists r2 status,
               self s1 = append_record r2 status (self s)
               ∧ fs (world s) ⊆ fs (world s1)
               ∧ (converted r1 -> PROCESSING_STATUS r2 = "Skipped")).
    { destruct (decide (PROCESSING_STATUS r1 = "Success"
                        ∨ PROCESSING_STATUS r1 = "Skipped")) as [Hc|Hc].
      - destruct (process_file_settled raw out p s) as (r2 & w & Hr & Hw & Hst & _);
          [eapply settled_mono; eauto|done|].
        rewrite Hr in Hstep. simplify_eq.
        exists r2, SKIPPED. simpl. rewrite Hw. auto.
      - apply process_file_spec in Hstep
          as [Hfs [(_ & r & status & Hself & _)|(e & [=] & _)]].
        exists r, status. split; [done|]. split; [done|]. intros; contradiction. }
    destruct Hs1 as (r2 & status & Hself & Hfs & Hskip).
    destruct (IH s1) as (rs2 & Hrs & Hall2); [by etrans| |done|].
    { rewrite Hself. destruct Hroots. split; assumption. }
    exists (r2 :: rs2). split.
    + rewrite Hrs, Hself. simpl. by rewrite <- app_assoc.
    + by constructor.
Qed.

(** [save_to_csv] writes its file only where there is none; where
    there is one it logs a warning, leaves the files as they are and
    returns. *)
Lemma save_to_csv_spec (stamp : string) (s s' : st ProcessingTracker) o :
  save_to_csv stamp s = (o, s') ->
  fs (world s) ⊆ fs (world s')
  ∧ self s' = self s
  ∧ (fs_exists (fs (world s)) (status_csv_path stamp) = true ->
     o = Ok tt
     ∧ fs (world s') = fs (world s)
     ∧ log (world s')
       = log (world s)
         ++ [(WARNING, "Status report file already exists: "
                       +:+ path_str (status_csv_path stamp))]).
Proof.
  unfold save_to_csv. intros H. destruct s as [w t]. run_in H.
  split_run H; simplify_eq; fs_facts; simplify_eq.
  all: cbn [world self fs log set_fs add_log].
  all: split; [done|]; split; [done|]; intros Hex; try congruence.
  repeat split; done.
Qed.

Lemma print_summary_effect (s s' : st ProcessingTracker) o :
  print_summary s = (o, s') ->
  o = Ok tt ∧ self s' = self s ∧ fs (world s') = fs (world s).
Proof.
  unfold print_summary. intros H. destruct s as [w t]. run_in H.
  by simplify_eq.
Qed.

Variable rglob : gmap (list string) node -> list string -> string -> list (list string).

(** A run of [_build_daily_parquet] that ends, over a set of files that
    is not empty. *)
Lemma build_spec (stamp : string) (raw out : list string) (pattern : string)
    (files : list (list string)) (s s' : st ProcessingTracker) :
  rglob (fs (world s)) raw pattern = files ->
  files <> [] ->
  _build_daily_parquet stamp rglob parse_csv encode_parquet raw out pattern false s
  = (Ok tt, s') ->
  exists s1,
    for_each files (body raw out)
      (mkst (add_log (INFO, "Found " +:+ pretty (Z.of_nat (List.length files))
                            +:+ " CSV files under " +:+ path_str raw) (world s))
            (new_tracker raw out)) = (Ok tt, s1)
    ∧ fs (world s1) ⊆ fs (world s')
    ∧ self s' = self s1.
Proof.
  intros Hfiles Hne H. unfold _build_daily_parquet in H.
  destruct s as [w t]. simpl in Hfiles.
  cbv beta iota zeta delta [bind get_world world] in H. rewrite Hfiles in H.
  destruct files as [|p files]; [done|].
  run_in H. split_run H; simplify_eq.
  all: repeat match goal with
         | H : save_to_csv _ _ = _ |- _ =>
             apply save_to_csv_spec in H; destruct H as (? & ? & _)
         | H : print_summary _ = _ |- _ =>
             apply print_summary_effect in H; destruct H as (? & ? & ?)
         end; simplify_eq; simpl in *.
  destruct a. exists s. split; [exact E|]. rewrite H3. split; [done|congruence].
Qed.

Lemma new_tracker_roots (raw out : list string) :
  tracker_roots raw out (new_tracker raw out).
Proof. split; reflexivity. Qed.

(** C7 (amended). Two runs of the conversion over the same set of
    input files, with force disabled, both of which end: the second run
    changes none of the files and directories that are there after the
    first, so every curated file is the same byte for byte; each run
    has one record for each input file, in order; and every file that
    the first run recorded as success or skipped is recorded as skipped
    by the second.  A file whose name gives no date is recorded as an
    error by both. *)
Theorem rerun_keeps_files_and_skips (stamp1 stamp2 : string) (raw out : list string)
    (pattern : string) (files : list (list string)) (s0 s1 s2 : st ProcessingTracker) :
  files <> [] ->
  rglob (fs (world s0)) raw pattern = files ->
  rglob (fs (world s1)) raw pattern = files ->
  _build_daily_parquet stamp1 rglob parse_csv encode_parquet raw out pattern false s0
  = (Ok tt, s1) ->
  _build_daily_parquet stamp2 rglob parse_csv encode_parquet raw out pattern false s1
  = (Ok tt, s2) ->
  (forall p n, fs (world s1) !! p = Some n -> fs (world s2) !! p = Some n)
  ∧ Forall2 record_of files (records (self s1))
  ∧ Forall2 record_of files (records (self s2))
  ∧ Forall2 (fun r1 r2 => converted r1 -> PROCESSING_STATUS r2 = "Skipped")
            (records (self s1)) (records (self s2)).
Proof.
  intros Hne Hf0 Hf1 Hrun1 Hrun2.
  destruct (build_spec _ _ _ _ _ _ _ Hf0 Hne Hrun1) as (sa1 & Hloop1 & Hfs1 & Hself1).
  destruct (build_spec _ _ _ _ _ _ _ Hf1 Hne Hrun2) as (sa2 & Hloop2 & Hfs2 & Hself2).
  destruct (for_each_spec _ _ _ _ _ Hloop1 (new_tracker_roots raw out))
    as (_ & _ & rs1 & Hrs1 & Hall1).
  destruct (for_each_spec _ _ _ _ _ Hloop2 (new_tracker_roots raw out))
    as (Hmono2 & _ & rs2 & Hrs2 & Hall2).
  simpl in Hrs1, Hrs2, Hmono2.
  assert (Hset : Forall2 (fun p r => converted r -> settled raw out p (fs (world sa1)))
                         files rs1).
  { eapply Forall2_impl; [exact Hall1|]. simpl. intros p r [_ H]. exact H. }
  destruct (for_each_again raw out files rs1 (fs (world sa1))
              (mkst (add_log _ (world s1)) (new_tracker raw out)) sa2 Hset Hfs1
              (new_tracker_roots raw out) Hloop2) as (rs2' & Hrs2' & Hskip).
  simpl in Hrs2'. rewrite Hself1, Hself2, Hrs1, Hrs2.
  split; [|split; [|split]].
  - intros p n Hp. eapply lookup_weaken; [exact Hp|]. by etrans.
  - eapply Forall2_impl; [exact Hall1|]. by intros p r [H _].
  - eapply Forall2_impl; [exact Hall2|]. by intros p r [H _].
  - rewrite Hrs2' in Hrs2. subst rs2'. exact Hskip.
Qed.

End RerunFacts.

Section RerunExamples.

Import Convert Scenario.

Lemma pair_fst_snd {A B : Type} (x : A * B) (a : A) : x.1 = a -> x = (a, x.2).
Proof. destruct x. simpl. by intros ->. Qed.

Lemma rerun_keeps_files_and_skips_witness :
  let build stamp :=
    _build_daily_parquet stamp rglob1 parse_ok encode_ok ["raw"] ["out"]
      "sec_bhavdata_full_*.csv" false in
  let s1 := (build "20250815_000000" convert_start1).2 in
  let s2 := (build "20250815_000100" s1).2 in
  (forall p n, fs (world s1) !! p = Some n -> fs (world s2) !! p = Some n)
  ∧ Forall2 record_of [input0; input1] (records (self s1))
  ∧ Forall2 record_of [input0; input1] (records (self s2))
  ∧ Forall2 (fun r1 r2 => converted r1 -> PROCESSING_STATUS r2 = "Skipped")
            (records (self s1)) (records (self s2)).
Proof.
  intros build s1 s2.
  apply (rerun_keeps_files_and_skips parse_ok encode_ok rglob1
           "20250815_000000" "20250815_000100" ["raw"] ["out"]
           "sec_bhavdata_full_*.csv" [input0; input1] convert_start1 s1 s2).
  - discriminate.
  - reflexivity.
  - reflexivity.
  - refine (pair_fst_snd _ _ _). vm_compute. reflexivity.
  - refine (pair_fst_snd _ _ _). vm_compute. reflexivity.
Defined.

(** C7 as stated fails: next to the file of 23 August 2019 the input
    set holds a file whose name has no date; both runs end, and the
    second run records the first file as skipped and the other as an
    error again. *)
Lemma rerun_records_error_again :
  let build stamp :=
    _build_daily_parquet stamp rglob1 parse_ok encode_ok ["raw"] ["out"]
      "sec_bhavdata_full_*.csv" false in
  let r1 := build "20250815_000000" convert_start1 in
  let r2 := build "20250815_000100" r1.2 in
  r1.1 = Ok tt
  ∧ r2.1 = Ok tt
  ∧ map FILE_NAME (records (self r2.2))
    = ["sec_bhavdata_full_23082019.csv"; "sec_bhavdata_full_latest.csv"]
  ∧ map PROCESSING_STATUS (records (self r1.2)) = ["Success"; "Error"]
  ∧ map PROCESSING_STATUS (records (self r2.2)) = ["Skipped"; "Error"].
Proof. vm_compute. repeat split; reflexivity. Qed.

End RerunExamples.
